(** * ISO-AI backend: the control-assessment pipeline of [main.py]

    A shallow embedding of [iso-ai-backend/main.py]: the judge
    ([analyze_control]), the aggregation loop and the summary of
    [analyze_pdf], and the table rows written by [generate_html_report].

    Python values that come out of [json.loads] are modelled by the
    inductive type [json]; exceptions by the type [exn] and the error
    monad [result]; the file system by the record [fs].  Python strings
    are modelled by their UTF-8 encoding. *)

From Stdlib Require Import ZArith String Ascii List Bool Lia.
From Stdlib Require Import SpecFloat.
From stdpp Require Import base option list gmap strings.

#[local] Set Warnings "-register-all".
#[local] Arguments String.append : simpl nomatch.
Open Scope string_scope.

(** ** Python values and exceptions *)

Module Py.

(** A value produced by [json.loads]: [None], [bool], [int], [float],
    [str], [list] or [dict].  A [dict] is kept as the list of its items in
    insertion order; its keys are pairwise distinct. *)
Inductive json : Type :=
| JNull
| JBool (b : bool)
| JInt (z : Z)
| JFloat (f : spec_float)
| JStr (s : string)
| JArr (items : list json)
| JObj (items : list (string * json)).

(** The exceptions the pipeline can raise. *)
Inductive exn : Type :=
| ConnectionError
| HTTPError
| JSONDecodeError
| KeyError (key : string)
| KeyError0
| IndexError
| TypeError
| AttributeError
| PDFSyntaxError
| FileNotFoundError
| RenderError.

(** A computation that returns a value or raises. *)
Inductive result (A : Type) : Type :=
| Ok (a : A)
| Raise (e : exn).
Arguments Ok {A} a.
Arguments Raise {A} e.

Definition bind {A B} (m : result A) (k : A -> result B) : result B :=
  match m with
  | Ok a => k a
  | Raise e => Raise e
  end.

Definition raises {A} (m : result A) : Prop := exists e, m = Raise e.

(** [d[key]] on a [dict] held as its item list. *)
Fixpoint dict_get (items : list (string * json)) (key : string) : option json :=
  match items with
  | [] => None
  | (k, v) :: rest => if String.eqb k key then Some v else dict_get rest key
  end.

(** [obj[key]] for a string key: a [dict] is looked up (a missing key is a
    [KeyError]); a [list] or a [str] takes integer indices only and every
    other value is not subscriptable, all [TypeError]s. *)
Definition getitem (obj : json) (key : string) : result json :=
  match obj with
  | JObj items =>
      match dict_get items key with
      | Some v => Ok v
      | None => Raise (KeyError key)
      end
  | _ => Raise TypeError
  end.

(** The number of bytes of the UTF-8 sequence that starts with byte [c]. *)
Definition utf8_width (c : ascii) : nat :=
  let n := nat_of_ascii c in
  if Nat.ltb n 192 then 1 else if Nat.ltb n 224 then 2
  else if Nat.ltb n 240 then 3 else 4.

Fixpoint take_bytes (n : nat) (s : string) : string :=
  match n, s with
  | S k, String c rest => String c (take_bytes k rest)
  | _, _ => EmptyString
  end.

(** [obj[0]]: the first element of a [list], the first character of a
    [str] ([IndexError] when empty); a [dict] whose keys are all strings
    has no key [0]; other values are not subscriptable. *)
Definition getitem0 (obj : json) : result json :=
  match obj with
  | JArr (v :: _) => Ok v
  | JArr [] => Raise IndexError
  | JStr (String c rest) => Ok (JStr (take_bytes (utf8_width c) (String c rest)))
  | JStr EmptyString => Raise IndexError
  | JObj _ => Raise KeyError0
  | _ => Raise TypeError
  end.

(** [v == s] for a string literal [s]: only an equal [str] compares equal. *)
Definition eq_str (v : json) (s : string) : bool :=
  match v with
  | JStr t => String.eqb t s
  | _ => false
  end.

(** [s.startswith(p)]. *)
Fixpoint startswith (p s : string) : bool :=
  match p, s with
  | EmptyString, _ => true
  | String a p', String b s' => Ascii.eqb a b && startswith p' s'
  | String _ _, EmptyString => false
  end.

(** [s.replace(old, new)] for a non-empty [old]: scanning from the left,
    each occurrence of [old] is replaced and the scan resumes after it.
    [skip] counts the characters of a matched occurrence still to drop. *)
Fixpoint replace_from (old new : string) (skip : nat) (s : string) : string :=
  match s with
  | EmptyString => EmptyString
  | String c rest =>
      match skip with
      | S k => replace_from old new k rest
      | O =>
          if startswith old s
          then new +:+ replace_from old new (String.length old - 1) rest
          else String c (replace_from old new 0 rest)
      end
  end.

Definition replace (old new s : string) : string := replace_from old new 0 s.

End Py.

(** ** Numbers: Python's [int / int], [float * int] and [round(x, 2)]

    A Python [float] is an IEEE 754 binary64 number, here a [spec_float]
    with precision 53 and maximal exponent 1024. *)

Module Num.

Definition prec : Z := 53.
Definition emax : Z := 1024.

(** A number held in the summary: [round(0, 2)] is the [int] 0, while
    [round] of a [float] is a [float]. *)
Inductive pynum : Type :=
| PyInt (z : Z)
| PyFloat (f : spec_float).

(** [float(z)]: the binary64 number nearest to the integer [z]. *)
Definition float_of_Z (z : Z) : spec_float := binary_normalize prec emax z 0 false.

(** The binary64 number nearest to the quotient [a / b] of two integers,
    [a >= 0] and [b > 0], with sign bit [s]; ties go to the even mantissa. *)
Definition nearest_quotient (s : bool) (a b : Z) : spec_float :=
  match a with
  | Z0 => S754_zero s
  | _ =>
      let '(q, e, l) := SFdiv_core_binary prec emax a 0 b 0 in
      binary_round_aux prec emax s q e l
  end.

(** [a / b] on two non-negative [int]s with [b > 0]: true division, the
    correctly rounded quotient. *)
Definition truediv (a b : Z) : spec_float := nearest_quotient false a b.

(** [x * n] for a [float] [x] and an [int] [n]. *)
Definition mul_int (x : spec_float) (n : Z) : spec_float :=
  SFmul prec emax x (float_of_Z n).

(** The integer nearest to [m * 2^e], ties to even. *)
Definition nearest_int (m e : Z) : Z :=
  match e with
  | Zneg p =>
      let d := Z.pow_pos 2 p in
      let q := Z.div m d in
      let r := Z.modulo m d in
      match Z.compare (2 * r) d with
      | Lt => q
      | Gt => q + 1
      | Eq => if Z.even q then q else q + 1
      end
  | _ => m * Z.pow 2 e
  end.

(** [round(x, 2)] on a [float]: the exact value of [x] is rounded to the
    nearest multiple of 1/100 (ties to the even hundredth), and the
    result is the binary64 number nearest to that decimal.  Zeros,
    infinities and NaN round to themselves, and so does a [float] with a
    non-negative exponent, which is an integer. *)
Definition round2_float (x : spec_float) : spec_float :=
  match x with
  | S754_finite s m (Zneg p) =>
      nearest_quotient s (nearest_int (Zpos m * 100) (Zneg p)) 100
  | _ => x
  end.

(** [round(v, 2)]: an [int] is returned unchanged. *)
Definition round2 (v : pynum) : pynum :=
  match v with
  | PyInt z => PyInt z
  | PyFloat f => PyFloat (round2_float f)
  end.

End Num.

(** ** The data model of [main.py] *)

Import Py Num.

Notation "'try!' x ':=' m 'in' k" := (bind m (fun x => k))
  (at level 10, x name, m at level 100, k at level 200,
   format "'[v' 'try!'  x  ':='  m  'in' '/' k ']'").

(** One row of [iso_controls], as [load_iso_controls] builds it. *)
Record control : Type := {
  old_control_id : string;
  old_title : string;
  new_control_id : string;
  new_title : string;
  c_domain : string;
  description : string
}.

(** The [result] dictionary built for one control in [analyze_pdf]: three
    strings copied from the catalog and four values copied from the
    decoded reply, whatever their type. *)
Record row : Type := {
  control_id : string;
  control_title : string;
  domain : string;
  status : json;
  risk_level : json;
  justification : json;
  recommendation : json
}.

(** The [summary] dictionary of [analyze_pdf]. *)
Record summary : Type := {
  total_controls : nat;
  met_count : nat;
  partially_met_count : nat;
  not_met_count : nat;
  compliance_percentage : pynum
}.

(** What [requests.post] and the response object give back for one call. *)
Inductive http_reply : Type :=
| NoResponse
| Response (ok : bool) (body : option json).

(** The file system: regular files by path, and the directories. *)
Record fs : Type := {
  files : gmap string string;
  dirs : gset string
}.

(** The collaborators of one request that are not code of [main.py]. *)
Record env : Type := {
  (** the global [iso_controls], loaded at start-up *)
  iso_controls : list control;
  (** [json.loads]; [None] when it raises *)
  json_loads : string -> option json;
  (** [str(v)] for a value that is not a [str] *)
  str_other : json -> string;
  (** [s.lower()] *)
  lower : string -> string;
  (** the name [tempfile.NamedTemporaryFile] picks *)
  temp_path : string;
  (** [pdfplumber]: the [extract_text()] of each page of a file's content *)
  pdf_pages : string -> result (list (option string));
  (** the chat-completions service: the reply to the call number [i] of the
      request, whose payload is built from the control and the text *)
  oracle : nat -> control -> string -> http_reply;
  (** [datetime.now().strftime(...)] *)
  now : string;
  (** the head of the page, from [<!DOCTYPE html>] to [<tbody>], for a
      timestamp and a summary *)
  page_head : string -> summary -> string;
  (** WeasyPrint: the PDF rendered from an HTML text *)
  write_pdf : string -> result string
}.

(** ** [analyze_control] *)

(** [response.json()]. *)
Definition response_json (body : option json) : result json :=
  match body with
  | Some data => Ok data
  | None => Raise JSONDecodeError
  end.

(** [json.loads(v)]: the argument has to be a [str]. *)
Definition loads (E : env) (v : json) : result json :=
  match v with
  | JStr text =>
      match json_loads E text with
      | Some decoded => Ok decoded
      | None => Raise JSONDecodeError
      end
  | _ => Raise TypeError
  end.

Definition analyze_control (E : env) (i : nat) (c : control) (extracted_text : string)
  : result json :=
  match oracle E i c extracted_text with
  | NoResponse => Raise ConnectionError
  | Response false _ => Raise HTTPError
  | Response true body =>
      try! response_data := response_json body in
      try! choices := getitem response_data "choices" in
      try! choice := getitem0 choices in
      try! message := getitem choice "message" in
      try! ai_response_text := getitem message "content" in
      loads E ai_response_text
  end.

(** ** The aggregation of [analyze_pdf] *)

(** Lines 533-541: the [result] dictionary of one control. *)
Definition build_result (c : control) (analysis : json) : result row :=
  try! st := getitem analysis "status" in
  try! rl := getitem analysis "risk_level" in
  try! ju := getitem analysis "justification" in
  try! re := getitem analysis "recommendation" in
  Ok {| control_id := new_control_id c;
        control_title := new_title c;
        domain := c_domain c;
        status := st;
        risk_level := rl;
        justification := ju;
        recommendation := re |}.

(** Lines 527-543: the loop over the catalog; [i] counts the calls made so
    far and [results] is the list built so far. *)
Fixpoint analyze_each (E : env) (i : nat) (controls : list control)
    (extracted_text : string) (results : list row) : result (list row) :=
  match controls with
  | [] => Ok results
  | c :: rest =>
      try! analysis := analyze_control E i c extracted_text in
      try! r := build_result c analysis in
      analyze_each E (S i) rest extracted_text (results ++ [r])
  end.

(** The sum of one [1] per result whose status equals the literal [lit]. *)
Definition count_status (lit : string) (results : list row) : nat :=
  list_sum (List.map (fun _ => 1) (List.filter (fun r => eq_str (status r) lit) results)).

(** Lines 546-559. *)
Definition summarize (results : list row) : summary :=
  let total := length results in
  let met := count_status "MET" results in
  let partially_met := count_status "PARTIALLY MET" results in
  let not_met := count_status "NOT MET" results in
  let percentage :=
    if Nat.ltb 0 total
    then PyFloat (mul_int (truediv (Z.of_nat met) (Z.of_nat total)) 100)
    else PyInt 0 in
  {| total_controls := total;
     met_count := met;
     partially_met_count := partially_met;
     not_met_count := not_met;
     compliance_percentage := round2 percentage |}.

(** Lines 519-524: the text of the pages, each followed by a newline; a
    page whose text is [None] or empty is skipped. *)
Definition nl : string := String (ascii_of_nat 10) EmptyString.

Fixpoint join_pages (pages : list (option string)) (extracted_text : string) : string :=
  match pages with
  | [] => extracted_text
  | Some (String a t) :: rest => join_pages rest (extracted_text +:+ String a t +:+ nl)
  | _ :: rest => join_pages rest extracted_text
  end.

Definition extract_text (E : env) (content : string) : result string :=
  try! pages := pdf_pages E content in
  Ok (join_pages pages EmptyString).

(** ** [generate_html_report]: the table rows *)

Definition dq : string := String (ascii_of_nat 34) EmptyString.

(** [str(text)]: a [str] is itself. *)
Definition str (E : env) (text : json) : string :=
  match text with
  | JStr s => s
  | v => str_other E v
  end.

(** Lines 461-462. *)
Definition escape_html (E : env) (text : json) : string :=
  replace dq "&quot;"
    (replace ">" "&gt;" (replace "<" "&lt;" (replace "&" "&amp;" (str E text)))).

(** Lines 449-455. *)
Definition status_class (r : row) : string :=
  if eq_str (status r) "MET" then "status-met"
  else if eq_str (status r) "PARTIALLY MET" then "status-partially-met"
  else "status-not-met".

(** Line 458: only a [str] has a method [lower]. *)
Definition risk_class (E : env) (r : row) : result string :=
  match risk_level r with
  | JStr s => Ok ("risk-" +:+ lower E s)
  | _ => Raise AttributeError
  end.

Definition sp20 : string := "                    ".
Definition sp24 : string := "                        ".

(** Lines 464-473: the text added for one result, given its two classes
    and its seven cells. *)
Definition row_html (status_cls risk_cls : string)
    (c_id c_title c_domain c_status c_risk c_just c_rec : string) : string :=
  sp20 +:+ "<tr>" +:+ nl
  +:+ sp24 +:+ "<td>" +:+ c_id +:+ "</td>" +:+ nl
  +:+ sp24 +:+ "<td>" +:+ c_title +:+ "</td>" +:+ nl
  +:+ sp24 +:+ "<td>" +:+ c_domain +:+ "</td>" +:+ nl
  +:+ sp24 +:+ "<td><span class=" +:+ dq +:+ status_cls +:+ dq +:+ ">"
      +:+ c_status +:+ "</span></td>" +:+ nl
  +:+ sp24 +:+ "<td><span class=" +:+ dq +:+ risk_cls +:+ dq +:+ ">"
      +:+ c_risk +:+ "</span></td>" +:+ nl
  +:+ sp24 +:+ "<td class=" +:+ dq +:+ "justification" +:+ dq +:+ ">"
      +:+ c_just +:+ "</td>" +:+ nl
  +:+ sp24 +:+ "<td class=" +:+ dq +:+ "recommendation" +:+ dq +:+ ">"
      +:+ c_rec +:+ "</td>" +:+ nl
  +:+ sp20 +:+ "</tr>" +:+ nl.

Definition render_row (E : env) (r : row) : result string :=
  let status_cls := status_class r in
  try! risk_cls := risk_class E r in
  Ok (row_html status_cls risk_cls
        (escape_html E (JStr (control_id r)))
        (escape_html E (JStr (control_title r)))
        (escape_html E (JStr (domain r)))
        (escape_html E (status r))
        (escape_html E (risk_level r))
        (escape_html E (justification r))
        (escape_html E (recommendation r))).

(** Lines 447-473: the loop that extends [html_content] row by row. *)
Fixpoint render_rows (E : env) (results : list row) (html_content : string)
  : result string :=
  match results with
  | [] => Ok html_content
  | r :: rest =>
      try! text := render_row E r in
      render_rows E rest (html_content +:+ text)
  end.

(** Lines 475-480. *)
Definition page_foot : string :=
  "                </tbody>" +:+ nl
  +:+ "            </table>" +:+ nl
  +:+ "        </div>" +:+ nl
  +:+ "    </div>" +:+ nl
  +:+ "</body>" +:+ nl
  +:+ "</html>".

(** ** Files *)

(** A computation that reads and writes the file system and may raise. *)
Definition io (A : Type) : Type := fs -> result A * fs.

Definition io_ret {A} (a : A) : io A := fun st => (Ok a, st).

Definition io_bind {A B} (m : io A) (k : A -> io B) : io B :=
  fun st =>
    match m st with
    | (Ok a, st') => k a st'
    | (Raise e, st') => (Raise e, st')
    end.

Definition io_lift {A} (m : result A) : io A := fun st => (m, st).

Notation "'do!' x ':=' m 'in' k" := (io_bind m (fun x => k))
  (at level 10, x name, m at level 100, k at level 200,
   format "'[v' 'do!'  x  ':='  m  'in' '/' k ']'").

(** [os.path.exists(p)]. *)
Definition path_exists (p : string) (st : fs) : bool :=
  bool_decide (is_Some (files st !! p)) || bool_decide (p ∈ dirs st).

(** [os.makedirs(p)]. *)
Definition makedirs (p : string) : io unit :=
  fun st => (Ok tt, {| files := files st; dirs := {[p]} ∪ dirs st |}).

(** Opening [p] for writing and writing [content]. *)
Definition write_file (p content : string) : io unit :=
  fun st => (Ok tt, {| files := <[p := content]> (files st); dirs := dirs st |}).

(** Opening [p] for reading. *)
Definition read_file (p : string) : io string :=
  fun st =>
    match files st !! p with
    | Some content => (Ok content, st)
    | None => (Raise FileNotFoundError, st)
    end.

(** [os.remove(p)]. *)
Definition remove (p : string) : io unit :=
  fun st => (Ok tt, {| files := delete p (files st); dirs := dirs st |}).

(** [os.path.join(a, b)]. *)
Definition path_join (a b : string) : string := a +:+ "/" +:+ b.

Definition reports_dir : string := "reports".
Definition report_html_path : string := path_join reports_dir "report.html".
Definition report_pdf_path : string := path_join reports_dir "report.pdf".

(** ** [generate_html_report], [generate_pdf_report] and [analyze_pdf] *)

Definition generate_html_report (E : env) (s : summary) (results : list row)
  : io string :=
  do! _ := (fun st => if path_exists reports_dir st then (Ok tt, st)
                       else makedirs reports_dir st) in
  let timestamp := now E in
  let html_content := page_head E timestamp s in
  do! html_content := io_lift (render_rows E results html_content) in
  let html_content := html_content +:+ page_foot in
  let report_path := path_join reports_dir "report.html" in
  do! _ := write_file report_path html_content in
  io_ret report_path.

Definition generate_pdf_report (E : env) (html_path : string) : io string :=
  let pdf_path := path_join reports_dir "report.pdf" in
  do! html := read_file html_path in
  do! pdf := io_lift (write_pdf E html) in
  do! _ := write_file pdf_path pdf in
  io_ret pdf_path.

(** The [try] block of [analyze_pdf], lines 518-573. *)
Definition analyze_body (E : env) : io (summary * list row) :=
  do! content := read_file (temp_path E) in
  do! extracted_text := io_lift (extract_text E content) in
  do! results := io_lift (analyze_each E 0 (iso_controls E) extracted_text []) in
  let s := summarize results in
  do! html_path := generate_html_report E s results in
  do! pdf_path := generate_pdf_report E html_path in
  io_ret (s, results).

(** [analyze_pdf]: the upload is saved under the temporary name, the
    [try] block runs, and the [finally] clause removes the temporary file
    whether the block returned or raised. *)
Definition analyze_pdf (E : env) (content : string) : io (summary * list row) :=
  fun st =>
    let '(_, st1) := write_file (temp_path E) content st in
    let '(outcome, st2) := analyze_body E st1 in
    let '(_, st3) :=
      if path_exists (temp_path E) st2 then remove (temp_path E) st2 else (Ok tt, st2) in
    (outcome, st3).

(** ** Reference definitions for the statements *)

(** The text that stands for one character once the four characters
    [&], [<], [>] and the double quote are written as entities. *)
Definition esc_char (c : ascii) : string :=
  if Ascii.eqb c "&" then "&amp;"
  else if Ascii.eqb c "<" then "&lt;"
  else if Ascii.eqb c ">" then "&gt;"
  else if Ascii.eqb c (ascii_of_nat 34) then "&quot;"
  else String c EmptyString.

(** [f] applied to every character, the pieces joined. *)
Fixpoint flat (f : ascii -> string) (s : string) : string :=
  match s with
  | EmptyString => EmptyString
  | String c rest => f c +:+ flat f rest
  end.

Definition escape_text (s : string) : string := flat esc_char s.

(** What follows the [&] of the four entities. *)
Definition entity_tails : list string := ["amp;"; "lt;"; "gt;"; "quot;"].

(** The five markup metacharacters, and the four that [escape_html] names. *)
Definition apostrophe : ascii := ascii_of_nat 39.
Definition metachars5 : list ascii := ["&"; "<"; ">"; ascii_of_nat 34; apostrophe]%char.
Definition metachars4 : list ascii := ["&"; "<"; ">"; ascii_of_nat 34]%char.

(** No character of [specials] stands raw in [s]: an [&] opens one of the
    four entities, and no other character of [specials] occurs. *)
Fixpoint escaped_for (specials : list ascii) (s : string) : bool :=
  match s with
  | EmptyString => true
  | String c rest =>
      (if Ascii.eqb c "&" then existsb (fun t => startswith t rest) entity_tails
       else negb (existsb (Ascii.eqb c) specials))
      && escaped_for specials rest
  end.

(** The texts of a list, one after the other. *)
Definition join (texts : list string) : string := fold_right String.append EmptyString texts.

(** [needle in s]. *)
Fixpoint contains (needle s : string) : bool :=
  startswith needle s
  || match s with
     | EmptyString => false
     | String _ rest => contains needle rest
     end.

(** The three status literals of the prompt. *)
Definition known_status (v : json) : Prop :=
  v = JStr "MET" \/ v = JStr "PARTIALLY MET" \/ v = JStr "NOT MET".





(** The fields of a result that identify its control. *)
Definition identity (r : row) : string * string * string :=
  (control_id r, control_title r, domain r).

(** The same three fields as the catalog holds them. *)
Definition control_identity (c : control) : string * string * string :=
  (new_control_id c, new_title c, c_domain c).

(** One call of the judge for the control [c]: the decoded reply and the
    result built from it. *)
Definition judge (E : env) (i : nat) (c : control) (extracted_text : string) : result row :=
  try! analysis := analyze_control E i c extracted_text in
  build_result c analysis.

(** The state in which the [try] block of [analyze_pdf] starts: the
    upload is stored under the temporary name. *)
Definition saved (E : env) (content : string) (st : fs) : fs :=
  {| files := <[temp_path E := content]> (files st); dirs := dirs st |}.

(** The state the [finally] clause of [analyze_pdf] leaves. *)
Definition cleaned (E : env) (st : fs) : fs :=
  if path_exists (temp_path E) st
  then {| files := delete (temp_path E) (files st); dirs := dirs st |}
  else st.

(** ** The download routes *)

(** What a download route answers: a file to send, or an HTTP error. *)
Inductive http_answer : Type :=
| FileResponse (path filename media_type : string)
| HTTPException (status_code : nat) (detail : string).

(** Lines 73-90. *)
Definition download_report (st : fs) : http_answer :=
  let report_path := path_join "reports" "report.html" in
  if negb (path_exists report_path st)
  then HTTPException 404
         "Report not found. Please run /analyze first to generate the report."
  else FileResponse report_path "iso_27001_report.html" "text/html".

(** Lines 93-110. *)
Definition download_report_pdf (st : fs) : http_answer :=
  let report_path := path_join "reports" "report.pdf" in
  if negb (path_exists report_path st)
  then HTTPException 404
         "PDF report not found. Please run /analyze first to generate the report."
  else FileResponse report_path "iso_27001_report.pdf" "application/pdf".

(** ** More reference definitions *)

(** A result whose status is none of the three literals. *)
Definition unrecognised (r : row) : bool :=
  negb (eq_str (status r) "MET" || eq_str (status r) "PARTIALLY MET"
        || eq_str (status r) "NOT MET").

(** A result whose row is tagged [status-not-met]. *)
Definition tagged_not_met (r : row) : bool :=
  String.eqb (status_class r) "status-not-met".

(** The number of times the character [c] occurs in [s]. *)
Fixpoint occurrences (c : ascii) (s : string) : nat :=
  match s with
  | EmptyString => 0
  | String x rest => (if Ascii.eqb x c then 1 else 0) + occurrences c rest
  end.

(** A text that holds none of the four characters [escape_html] rewrites. *)
Fixpoint plain (s : string) : bool :=
  match s with
  | EmptyString => true
  | String c rest => negb (existsb (Ascii.eqb c) metachars4) && plain rest
  end.

(** The texts of the pages that have one. *)
Fixpoint page_texts (pages : list (option string)) : list string :=
  match pages with
  | [] => []
  | Some (String a t) :: rest => String a t :: page_texts rest
  | _ :: rest => page_texts rest
  end.

(** A page without text: [None] or the empty string. *)
Definition blank_page (page : option string) : Prop :=
  page = None \/ page = Some EmptyString.

(** The summary of a run over an empty catalog. *)
Definition empty_summary : summary :=
  {| total_controls := 0; met_count := 0; partially_met_count := 0;
     not_met_count := 0; compliance_percentage := PyInt 0 |}.

(** ** Concrete collaborators for the examples *)

Module Demo.

Definition q (s : string) : string := dq +:+ s +:+ dq.

(** The text of a reply with the four fields, and the value [json.loads]
    decodes it to. *)
Definition verdict_text (st rl ju re : string) : string :=
  "{" +:+ q "status" +:+ ": " +:+ q st +:+ ", "
  +:+ q "justification" +:+ ": " +:+ q ju +:+ ", "
  +:+ q "risk_level" +:+ ": " +:+ q rl +:+ ", "
  +:+ q "recommendation" +:+ ": " +:+ q re +:+ "}".

Definition verdict (st rl ju re : string) : json :=
  JObj [("status", JStr st); ("justification", JStr ju);
        ("risk_level", JStr rl); ("recommendation", JStr re)].

(** A reply that lacks [recommendation]. *)
Definition short_text : string :=
  "{" +:+ q "status" +:+ ": " +:+ q "MET" +:+ ", "
  +:+ q "justification" +:+ ": " +:+ q "Stated in section 2." +:+ ", "
  +:+ q "risk_level" +:+ ": " +:+ q "LOW" +:+ "}".

Definition short_verdict : json :=
  JObj [("status", JStr "MET"); ("justification", JStr "Stated in section 2.");
        ("risk_level", JStr "LOW")].

Definition ju_found : string := "Section 4 assigns the responsibility.".
Definition ju_none : string := "No evidence in the policy text.".
Definition re_keep : string := "Keep the current practice.".
Definition re_write : string := "Document the procedure.".

(** [json.loads] on the reply texts used below. *)
Definition replies_decoded : list (string * json) :=
  [ (verdict_text "MET" "LOW" ju_found re_keep, verdict "MET" "LOW" ju_found re_keep);
    (verdict_text "PARTIALLY MET" "MEDIUM" ju_found re_write,
     verdict "PARTIALLY MET" "MEDIUM" ju_found re_write);
    (verdict_text "NOT MET" "HIGH" ju_none re_write, verdict "NOT MET" "HIGH" ju_none re_write);
    (verdict_text "COMPLIANT" "LOW" ju_found re_keep, verdict "COMPLIANT" "LOW" ju_found re_keep);
    (verdict_text "MAYBE" "CRITICAL" ju_none re_write, verdict "MAYBE" "CRITICAL" ju_none re_write);
    (short_text, short_verdict) ].

Definition loads_table (text : string) : option json := dict_get replies_decoded text.

(** The body of a successful chat completion whose message is [content]. *)
Definition completion (content : string) : json :=
  JObj [("id", JStr "chatcmpl-1");
        ("choices",
         JArr [JObj [("index", JInt 0);
                     ("message", JObj [("role", JStr "assistant");
                                       ("content", JStr content)])]])].

Definition answer (st rl ju re : string) : http_reply :=
  Response true (Some (completion (verdict_text st rl ju re))).

Definition met : http_reply := answer "MET" "LOW" ju_found re_keep.
Definition partially_met : http_reply := answer "PARTIALLY MET" "MEDIUM" ju_found re_write.
Definition not_met : http_reply := answer "NOT MET" "HIGH" ju_none re_write.
Definition compliant : http_reply := answer "COMPLIANT" "LOW" ju_found re_keep.
Definition short : http_reply := Response true (Some (completion short_text)).

(** [str.lower] on ASCII text. *)
Definition lower_ascii (c : ascii) : ascii :=
  let n := nat_of_ascii c in
  if Nat.leb 65 n && Nat.leb n 90 then ascii_of_nat (n + 32) else c.

Fixpoint lower_text (s : string) : string :=
  match s with
  | EmptyString => EmptyString
  | String c rest => String (lower_ascii c) (lower_text rest)
  end.

(** [str] on [None] and on the two [bool]s; the examples print no other
    value that is not a [str]. *)
Definition str_plain (v : json) : string :=
  match v with
  | JNull => "None"
  | JBool true => "True"
  | JBool false => "False"
  | _ => EmptyString
  end.

(** A page head cut down to its title and timestamp. *)
Definition short_head (timestamp : string) (s : summary) : string :=
  "<!DOCTYPE html>" +:+ nl +:+ "<html><body><h1>ISO 27001 Readiness Assessment Report</h1>"
  +:+ nl +:+ "<p>Generated on: " +:+ timestamp +:+ "</p>" +:+ nl +:+ "<table><tbody>" +:+ nl.

Definition ctl (id title : string) : control :=
  {| old_control_id := "A." +:+ id; old_title := title;
     new_control_id := id; new_title := title;
     c_domain := "Organizational"; description := title |}.

Definition catalog10 : list control :=
  [ ctl "5.1" "Policies for information security";
    ctl "5.2" "Information security roles and responsibilities";
    ctl "5.3" "Segregation of duties";
    ctl "5.4" "Management responsibilities";
    ctl "5.5" "Contact with authorities";
    ctl "5.6" "Contact with special interest groups";
    ctl "5.7" "Threat intelligence";
    ctl "5.8" "Information security in project management";
    ctl "5.9" "Inventory of information and other associated assets";
    ctl "5.10" "Acceptable use of information and other associated assets" ].

Definition catalog3 : list control := firstn 3 catalog10.

(** A request environment: the catalog and the replies of the service,
    one per call; a call beyond the list gets no response. *)
Definition world (catalog : list control) (replies : list http_reply) : env :=
  {| iso_controls := catalog;
     json_loads := loads_table;
     str_other := str_plain;
     lower := lower_text;
     temp_path := "/tmp/tmpk3v9x2a_.pdf";
     pdf_pages := fun _ =>
       Ok [Some "Access rights are reviewed every quarter."; None;
           Some "Roles are assigned by the security officer."];
     oracle := fun i _ _ => nth i replies NoResponse;
     now := "2025-03-01 09:30:00";
     page_head := short_head;
     write_pdf := fun html => Ok ("%PDF-1.7 " +:+ html) |}.

Definition upload : string := "%PDF-1.4 policy".

(** The result built for a control from a reply with four strings. *)
Definition result_of (c : control) (st rl ju re : string) : row :=
  {| control_id := new_control_id c; control_title := new_title c; domain := c_domain c;
     status := JStr st; risk_level := JStr rl;
     justification := JStr ju; recommendation := JStr re |}.

Definition r_met (c : control) : row := result_of c "MET" "LOW" ju_found re_keep.
Definition r_partially_met (c : control) : row :=
  result_of c "PARTIALLY MET" "MEDIUM" ju_found re_write.
Definition r_not_met (c : control) : row := result_of c "NOT MET" "HIGH" ju_none re_write.
Definition r_compliant (c : control) : row := result_of c "COMPLIANT" "LOW" ju_found re_keep.

Definition c1 : control := ctl "5.1" "Policies for information security".
Definition c2 : control := ctl "5.2" "Information security roles and responsibilities".
Definition c3 : control := ctl "5.3" "Segregation of duties".

(** Three controls, three replies inside the literals of the prompt. *)
Definition world_known : env := world catalog3 [met; partially_met; not_met].
Definition results_known : list row := [r_met c1; r_partially_met c2; r_not_met c3].

(** The third reply carries a status outside the three literals. *)
Definition world_unknown : env := world catalog3 [met; partially_met; compliant].
Definition results_unknown : list row := [r_met c1; r_partially_met c2; r_compliant c3].


Definition c10 : control :=
  ctl "5.10" "Acceptable use of information and other associated assets".

(** Ten controls: nine good replies, and a tenth without [recommendation]. *)
Definition world_tenth : env :=
  world catalog10 [met; met; partially_met; not_met; met; met; not_met; partially_met; met; short].

(** The text [pdf_pages] yields for every upload. *)
Definition policy_text : string :=
  "Access rights are reviewed every quarter." +:+ nl
  +:+ "Roles are assigned by the security officer." +:+ nl.

(** A result whose free text carries markup. *)
Definition script : string := "<script>&" +:+ dq.
Definition r_script : row := result_of c1 "NOT MET" "HIGH" script "it's missing".

(** The text [render_row] produces for [r_script]. *)
Definition r_script_text : string :=
  row_html "status-not-met" "risk-high"
    "5.1" "Policies for information security" "Organizational"
    "NOT MET" "HIGH" "&lt;script&gt;&amp;&quot;" "it's missing".

(** A file system with an earlier report in place. *)
Definition disk : fs :=
  {| files := {[ report_html_path := "<html>old</html>"; report_pdf_path := "%PDF old" ]};
     dirs := {[ reports_dir ]} |}.


(** A reply whose [risk_level] is [null]. *)
Definition null_risk_text : string :=
  "{" +:+ q "status" +:+ ": " +:+ q "MET" +:+ ", "
  +:+ q "justification" +:+ ": " +:+ q ju_found +:+ ", "
  +:+ q "risk_level" +:+ ": null, "
  +:+ q "recommendation" +:+ ": " +:+ q re_keep +:+ "}".

Definition null_risk_verdict : json :=
  JObj [("status", JStr "MET"); ("justification", JStr ju_found);
        ("risk_level", JNull); ("recommendation", JStr re_keep)].

Definition null_risk : http_reply := Response true (Some (completion null_risk_text)).

Definition loads_table2 (text : string) : option json :=
  dict_get ((null_risk_text, null_risk_verdict) :: replies_decoded) text.

Definition r_null_risk (c : control) : row :=
  {| control_id := new_control_id c; control_title := new_title c; domain := c_domain c;
     status := JStr "MET"; risk_level := JNull;
     justification := JStr ju_found; recommendation := JStr re_keep |}.

(** A request environment with its own decoder, extractor and printer. *)
Definition world_with (catalog : list control) (replies : list http_reply)
    (decode : string -> option json)
    (pages : string -> result (list (option string)))
    (printer : string -> result string) : env :=
  {| iso_controls := catalog;
     json_loads := decode;
     str_other := str_plain;
     lower := lower_text;
     temp_path := "/tmp/tmpk3v9x2a_.pdf";
     pdf_pages := pages;
     oracle := fun i _ _ => nth i replies NoResponse;
     now := "2025-03-01 09:30:00";
     page_head := short_head;
     write_pdf := printer |}.

Definition pages_ok (content : string) : result (list (option string)) :=
  Ok [Some "Access rights are reviewed every quarter."; None;
      Some "Roles are assigned by the security officer."].

Definition print_ok (html : string) : result string := Ok ("%PDF-1.7 " +:+ html).

(** The second reply has a [null] risk level. *)
Definition world_null_risk : env :=
  world_with catalog3 [met; null_risk; not_met] loads_table2 pages_ok print_ok.
Definition results_null_risk : list row := [r_met c1; r_null_risk c2; r_not_met c3].

(** WeasyPrint fails. *)
Definition world_no_pdf : env :=
  world_with catalog3 [met; partially_met; not_met] loads_table pages_ok
    (fun _ => Raise RenderError).

(** The upload is not a PDF. *)
Definition world_bad_upload : env :=
  world_with catalog3 [met; partially_met; not_met] loads_table
    (fun _ => Raise PDFSyntaxError) print_ok.

(** The second call gets an HTTP error; the third reply lacks a field. *)
Definition world_two_failures : env :=
  world catalog3 [met; Response false None; short].

(** An empty catalog. *)
Definition world_empty : env := world [] [].

(** The rows and the page written for [results_known]. *)
Definition rows_known : string :=
  row_html "status-met" "risk-low" "5.1" "Policies for information security"
    "Organizational" "MET" "LOW" ju_found re_keep
  +:+ row_html "status-partially-met" "risk-medium" "5.2"
        "Information security roles and responsibilities"
        "Organizational" "PARTIALLY MET" "MEDIUM" ju_found re_write
  +:+ row_html "status-not-met" "risk-high" "5.3" "Segregation of duties"
        "Organizational" "NOT MET" "HIGH" ju_none re_write.

Definition page_known : string :=
  short_head "2025-03-01 09:30:00" (summarize results_known) +:+ rows_known.

End Demo.


(** * Properties *)

(** ** Strings and [escape_html] *)

Section Strings.

Lemma append_assoc (a b c : string) : (a +:+ b) +:+ c = a +:+ (b +:+ c).
Proof. induction a as [|x a IH]; simpl; [reflexivity | now rewrite IH]. Qed.

Lemma append_empty_r (a : string) : a +:+ EmptyString = a.
Proof. induction a as [|x a IH]; simpl; [reflexivity | now rewrite IH]. Qed.

Lemma flat_app (f : ascii -> string) (a b : string) :
  flat f (a +:+ b) = flat f a +:+ flat f b.
Proof.
  induction a as [|x a IH]; [reflexivity|].
  cbn [flat String.append]. now rewrite IH, append_assoc.
Qed.

Lemma flat_flat (f g : ascii -> string) (s : string) :
  flat g (flat f s) = flat (fun c => flat g (f c)) s.
Proof.
  induction s as [|x s IH]; [reflexivity|].
  cbn [flat]. now rewrite flat_app, IH.
Qed.

Lemma flat_ext (f g : ascii -> string) (s : string) :
  (forall c, f c = g c) -> flat f s = flat g s.
Proof.
  intros Hfg. induction s as [|x s IH]; [reflexivity|].
  cbn [flat]. now rewrite Hfg, IH.
Qed.

(** Replacing a one-character pattern works character by character. *)
Lemma replace_one_char (c : ascii) (new s : string) :
  replace (String c EmptyString) new s
  = flat (fun x => if Ascii.eqb c x then new else String x EmptyString) s.
Proof.
  unfold replace. induction s as [|x s IH]; [reflexivity|].
  cbn [replace_from startswith flat String.length Nat.sub].
  rewrite andb_true_r. destruct (Ascii.eqb c x); rewrite IH; reflexivity.
Qed.

(** The chain of [replace] calls of [escape_html] writes each of the four
    characters as its entity and leaves every other character alone. *)
Lemma escape_html_flat (E : env) (text : json) :
  escape_html E text = escape_text (str E text).
Proof.
  unfold escape_html, escape_text, dq.
  change "&" with (String "&"%char EmptyString) at 1.
  change "<" with (String "<"%char EmptyString) at 1.
  change ">" with (String ">"%char EmptyString) at 1.
  rewrite !replace_one_char, !flat_flat.
  apply flat_ext. intros c.
  destruct c as [[] [] [] [] [] [] [] []]; reflexivity.
Qed.

Lemma escaped_for_esc_char (c : ascii) (t : string) :
  escaped_for metachars4 (esc_char c +:+ t) = escaped_for metachars4 t.
Proof. destruct c as [[] [] [] [] [] [] [] []]; reflexivity. Qed.

Lemma escape_text_escaped (s : string) : escaped_for metachars4 (escape_text s) = true.
Proof.
  unfold escape_text. induction s as [|c s IH]; [reflexivity|].
  cbn [flat]. now rewrite escaped_for_esc_char.
Qed.

Lemma startswith_app (p t : string) : startswith p (p +:+ t) = true.
Proof.
  induction p as [|x p IH]; simpl; [reflexivity|].
  now rewrite Ascii.eqb_refl, IH.
Qed.

Lemma contains_app (needle a b : string) :
  contains needle (a +:+ needle +:+ b) = true.
Proof.
  induction a as [|x a IH].
  - simpl. destruct (needle +:+ b) eqn:Hn; simpl; rewrite <- ?Hn, startswith_app; reflexivity.
  - cbn [append contains]. rewrite IH. apply orb_true_r.
Qed.

End Strings.

(** ** The aggregation loop *)

Section Aggregation.

Context (E : env).

Lemma bind_ok {A B} (m : result A) (k : A -> result B) (b : B) :
  bind m k = Ok b -> exists a, m = Ok a /\ k a = Ok b.
Proof. destruct m as [a|e]; simpl; [eauto | discriminate]. Qed.

Lemma build_result_ok (c : control) (analysis : json) (r : row) :
  build_result c analysis = Ok r ->
  identity r = (new_control_id c, new_title c, c_domain c)
  /\ getitem analysis "status" = Ok (status r)
  /\ getitem analysis "risk_level" = Ok (risk_level r)
  /\ getitem analysis "justification" = Ok (justification r)
  /\ getitem analysis "recommendation" = Ok (recommendation r).
Proof.
  unfold build_result. intros H.
  apply bind_ok in H as (st & Hst & H). apply bind_ok in H as (rl & Hrl & H).
  apply bind_ok in H as (ju & Hju & H). apply bind_ok in H as (re & Hre & H).
  injection H as <-. repeat split; assumption.
Qed.

Lemma judge_identity (i : nat) (c : control) (text : string) (r : row) :
  judge E i c text = Ok r -> identity r = (new_control_id c, new_title c, c_domain c).
Proof.
  unfold judge. intros H. apply bind_ok in H as (a & _ & H).
  now apply build_result_ok in H.
Qed.

Lemma analyze_each_cons (i : nat) (c : control) (rest : list control)
    (text : string) (acc : list row) :
  analyze_each E i (c :: rest) text acc
  = (try! r := judge E i c text in analyze_each E (S i) rest text (acc ++ [r])%list).
Proof.
  cbn [analyze_each]. unfold judge.
  destruct (analyze_control E i c text); reflexivity.
Qed.

(** A loop that returns has judged every control, in order. *)
Lemma analyze_each_ok (controls : list control) :
  forall (i : nat) (text : string) (acc rs : list row),
    analyze_each E i controls text acc = Ok rs ->
    exists new : list row,
      rs = (acc ++ new)%list /\ length new = length controls
      /\ forall k c, controls !! k = Some c ->
           exists r, new !! k = Some r /\ judge E (i + k) c text = Ok r.
Proof.
  induction controls as [|c rest IH]; intros i text acc rs H.
  - injection H as <-. exists []. rewrite app_nil_r. repeat split. intros k c Hk. discriminate.
  - rewrite analyze_each_cons in H. apply bind_ok in H as (r & Hr & H).
    apply IH in H as (new & -> & Hlen & Hnew).
    exists (r :: new). rewrite <- app_assoc. repeat split; [simpl; now rewrite Hlen|].
    intros [|k] c' Hk.
    + injection Hk as <-. exists r. rewrite Nat.add_0_r. now split.
    + apply Hnew in Hk as (r' & Hr' & Hj). exists r'. split; [assumption|].
      now rewrite <- Nat.add_succ_comm.
Qed.

(** A judge that raises on some control makes the loop raise. *)
Lemma analyze_each_raises (controls : list control) :
  forall (i k : nat) (c : control) (text : string) (acc : list row) (e : exn),
    controls !! k = Some c ->
    judge E (i + k) c text = Raise e ->
    raises (analyze_each E i controls text acc).
Proof.
  induction controls as [|c0 rest IH]; intros i k c text acc e Hk Hj; [discriminate|].
  rewrite analyze_each_cons. destruct k as [|k].
  - injection Hk as ->. rewrite Nat.add_0_r in Hj. rewrite Hj. now exists e.
  - destruct (judge E i c0 text) as [r|e0]; [|now exists e0].
    simpl. apply (IH (S i) k c text _ e Hk). now rewrite Nat.add_succ_comm.
Qed.

(** The identifying fields of the results are those of the catalog. *)
Lemma analyze_each_identity (controls : list control) :
  forall (i : nat) (text : string) (acc rs : list row),
    analyze_each E i controls text acc = Ok rs ->
    List.map identity rs
    = (List.map identity acc ++ List.map control_identity controls)%list.
Proof.
  induction controls as [|c rest IH]; intros i text acc rs H.
  - injection H as <-. simpl. now rewrite app_nil_r.
  - rewrite analyze_each_cons in H. apply bind_ok in H as (r & Hr & H).
    apply IH in H. rewrite H, List.map_app, <- app_assoc. simpl.
    now rewrite (judge_identity i c text r Hr).
Qed.

End Aggregation.

(** ** The summary *)

Section Summary.

Lemma count_status_cons (lit : string) (r : row) (rs : list row) :
  count_status lit (r :: rs)
  = (if eq_str (status r) lit then 1 else 0) + count_status lit rs.
Proof. unfold count_status. simpl. now destruct (eq_str (status r) lit). Qed.

Lemma count_status_app (lit : string) (rs1 rs2 : list row) :
  count_status lit (rs1 ++ rs2)%list = count_status lit rs1 + count_status lit rs2.
Proof.
  induction rs1 as [|r rs1 IH]; [reflexivity|].
  rewrite <- app_comm_cons, !count_status_cons, IH. lia.
Qed.

Lemma eq_str_true (v : json) (lit : string) : eq_str v lit = true <-> v = JStr lit.
Proof.
  destruct v as [| | | |s| |]; simpl; try (split; discriminate).
  rewrite String.eqb_eq. split; [now intros -> | now intros [= ->]].
Qed.

(** A status equals at most one of the three literals. *)
Lemma three_literals_exclusive (v : json) :
  (if eq_str v "MET" then 1 else 0) + (if eq_str v "PARTIALLY MET" then 1 else 0)
  + (if eq_str v "NOT MET" then 1 else 0) <= 1.
Proof.
  destruct v as [| | | |s| |]; simpl; try lia.
  destruct (String.eqb_spec s "MET") as [->|]; [vm_compute; lia|].
  destruct (String.eqb_spec s "PARTIALLY MET") as [->|]; [vm_compute; lia|].
  destruct (String.eqb s "NOT MET"); lia.
Qed.

Lemma known_status_counted (v : json) :
  known_status v ->
  (if eq_str v "MET" then 1 else 0) + (if eq_str v "PARTIALLY MET" then 1 else 0)
  + (if eq_str v "NOT MET" then 1 else 0) = 1.
Proof. intros [-> | [-> | ->]]; reflexivity. Qed.

Lemma counts_le_length (rs : list row) :
  count_status "MET" rs + count_status "PARTIALLY MET" rs + count_status "NOT MET" rs
  <= length rs.
Proof.
  induction rs as [|r rs IH]; [unfold count_status; simpl; lia|].
  rewrite !count_status_cons. pose proof (three_literals_exclusive (status r)).
  cbn [length]. lia.
Qed.

Lemma counts_eq_length (rs : list row) :
  Forall (fun r => known_status (status r)) rs ->
  count_status "MET" rs + count_status "PARTIALLY MET" rs + count_status "NOT MET" rs
  = length rs.
Proof.
  induction 1 as [|r rs Hr _ IH]; [reflexivity|].
  rewrite !count_status_cons. pose proof (known_status_counted _ Hr).
  cbn [length]. lia.
Qed.

End Summary.

(** ** The rendered row *)

Section Rows.

Context (E : env).

(** The status cell of a rendered row carries the class of the status. *)
Lemma render_row_status_cell (r : row) (text : string) :
  render_row E r = Ok text ->
  exists before after,
    text = before +:+ ("<td><span class=" +:+ dq +:+ status_class r +:+ dq +:+ ">"
                       +:+ escape_html E (status r) +:+ "</span></td>") +:+ after.
Proof.
  unfold render_row. intros H. apply bind_ok in H as (risk_cls & _ & H).
  injection H as <-. unfold row_html.
  exists (sp20 +:+ "<tr>" +:+ nl
          +:+ sp24 +:+ "<td>" +:+ escape_html E (JStr (control_id r)) +:+ "</td>" +:+ nl
          +:+ sp24 +:+ "<td>" +:+ escape_html E (JStr (control_title r)) +:+ "</td>" +:+ nl
          +:+ sp24 +:+ "<td>" +:+ escape_html E (JStr (domain r)) +:+ "</td>" +:+ nl
          +:+ sp24).
  exists (nl
          +:+ sp24 +:+ "<td><span class=" +:+ dq +:+ risk_cls +:+ dq +:+ ">"
              +:+ escape_html E (risk_level r) +:+ "</span></td>" +:+ nl
          +:+ sp24 +:+ "<td class=" +:+ dq +:+ "justification" +:+ dq +:+ ">"
              +:+ escape_html E (justification r) +:+ "</td>" +:+ nl
          +:+ sp24 +:+ "<td class=" +:+ dq +:+ "recommendation" +:+ dq +:+ ">"
              +:+ escape_html E (recommendation r) +:+ "</td>" +:+ nl
          +:+ sp20 +:+ "</tr>" +:+ nl).
  now rewrite !append_assoc.
Qed.

(** The loop over the results appends the rendered rows in order. *)
Lemma render_rows_ok (results : list row) :
  forall (html_content out : string),
    render_rows E results html_content = Ok out ->
    exists texts,
      Forall2 (fun r text => render_row E r = Ok text) results texts
      /\ out = html_content +:+ join texts.
Proof.
  induction results as [|r rest IH]; intros html_content out H.
  - injection H as <-. exists []. split; [constructor|]. simpl. now rewrite append_empty_r.
  - cbn [render_rows] in H. apply bind_ok in H as (text & Htext & H).
    apply IH in H as (texts & Hall & ->). exists (text :: texts).
    split; [now constructor|]. simpl. now rewrite append_assoc.
Qed.

(** The report written by [generate_html_report]: the head, the rendered
    rows in the order of the results, and the foot. *)
Lemma generate_html_report_content (s : summary) (results : list row)
    (st st' : fs) (path : string) :
  generate_html_report E s results st = (Ok path, st') ->
  path = report_html_path
  /\ exists texts,
       Forall2 (fun r text => render_row E r = Ok text) results texts
       /\ files st' !! report_html_path
          = Some (page_head E (now E) s +:+ join texts +:+ page_foot).
Proof.
  unfold generate_html_report, io_bind, io_lift, io_ret, write_file, makedirs.
  destruct (path_exists reports_dir st);
    (destruct (render_rows E results _) as [out|e] eqn:Hrows; [|discriminate]);
    intros H; injection H as <- <-; (split; [reflexivity|]);
    apply render_rows_ok in Hrows as (texts & Hall & ->); exists texts;
    (split; [assumption|]); cbn [files]; unfold report_html_path;
    now rewrite lookup_insert_eq, append_assoc.
Qed.

Lemma status_class_cases (r : row) :
  (status r = JStr "MET" /\ status_class r = "status-met")
  \/ (status r = JStr "PARTIALLY MET" /\ status_class r = "status-partially-met")
  \/ (status r <> JStr "MET" /\ status r <> JStr "PARTIALLY MET"
      /\ status_class r = "status-not-met").
Proof.
  unfold status_class.
  destruct (eq_str (status r) "MET") eqn:H1.
  - left. split; [now apply eq_str_true | reflexivity].
  - destruct (eq_str (status r) "PARTIALLY MET") eqn:H2.
    + right; left. split; [now apply eq_str_true | reflexivity].
    + right; right. repeat split; intros Heq; apply eq_str_true in Heq; congruence.
Qed.

End Rows.

(** ** A whole request *)

Section Request.

Context (E : env).

Lemma analyze_pdf_unfold (content : string) (st : fs) :
  analyze_pdf E content st
  = (fst (analyze_body E (saved E content st)), cleaned E (snd (analyze_body E (saved E content st)))).
Proof.
  unfold analyze_pdf, write_file, saved, cleaned, remove.
  destruct (analyze_body _ _) as [outcome st2]. simpl.
  now destruct (path_exists (temp_path E) st2).
Qed.


Lemma cleaned_saved (content : string) (st : fs) :
  files st !! temp_path E = None -> cleaned E (saved E content st) = st.
Proof.
  intros Hfresh. unfold cleaned, saved, path_exists. simpl.
  rewrite lookup_insert_eq.
  rewrite bool_decide_eq_true_2 by eauto. simpl.
  rewrite delete_insert_eq, delete_id by assumption. now destruct st.
Qed.

(** The [try] block up to the end of the loop. *)
Lemma analyze_body_unfold (content : string) (st : fs) :
  analyze_body E (saved E content st)
  = match extract_text E content with
    | Raise e => (Raise e, saved E content st)
    | Ok text =>
        match analyze_each E 0 (iso_controls E) text [] with
        | Raise e => (Raise e, saved E content st)
        | Ok results =>
            (do! html_path := generate_html_report E (summarize results) results in
             do! pdf_path := generate_pdf_report E html_path in
             io_ret (summarize results, results)) (saved E content st)
        end
    end.
Proof.
  unfold analyze_body, io_bind at 1, read_file, saved. cbn [files].
  rewrite lookup_insert_eq.
  unfold io_bind at 1, io_lift at 1.
  destruct (extract_text E content) as [text|e]; [|reflexivity].
  unfold io_bind at 1, io_lift at 1.
  destruct (analyze_each E 0 (iso_controls E) text []) as [results|e]; reflexivity.
Qed.

(** A request that returns has extracted a text, judged every control
    and summarised the results. *)
Lemma analyze_pdf_ok (content : string) (st : fs) (s : summary) (rs : list row) :
  fst (analyze_pdf E content st) = Ok (s, rs) ->
  exists text,
    extract_text E content = Ok text
    /\ analyze_each E 0 (iso_controls E) text [] = Ok rs
    /\ s = summarize rs.
Proof.
  rewrite analyze_pdf_unfold, analyze_body_unfold. cbn [fst]. intros H.
  destruct (extract_text E content) as [text|e] eqn:Htext; [|discriminate].
  destruct (analyze_each E 0 (iso_controls E) text []) as [results|e] eqn:Hloop;
    [|discriminate].
  exists text. unfold io_bind, io_ret in H.
  destruct (generate_html_report E (summarize results) results _) as [[html_path|e] st1];
    [|discriminate].
  destruct (generate_pdf_report E html_path st1) as [[pdf_path|e] st2]; [|discriminate].
  simpl in H. injection H as <- <-. repeat split; assumption.
Qed.

(** A judge that raises on some control makes the request raise before
    anything is rendered. *)
Lemma analyze_body_judge_raises (content text : string) (st : fs)
    (k : nat) (c : control) (e : exn) :
  extract_text E content = Ok text ->
  iso_controls E !! k = Some c ->
  judge E k c text = Raise e ->
  exists e', analyze_body E (saved E content st) = (Raise e', saved E content st).
Proof.
  intros Htext Hk Hj. rewrite analyze_body_unfold, Htext.
  destruct (analyze_each_raises E (iso_controls E) 0 k c text [] e Hk Hj) as [e' ->].
  now exists e'.
Qed.


End Request.

(** ** The properties of the specification *)

(** C1, as amended: after a run of [analyze_pdf] that returns, the summary
    counts every result ([total_controls] is the number of results), and
    when the status of every result is one of the three literals [MET],
    [PARTIALLY MET] and [NOT MET], the three counts add up to
    [total_controls]. *)
Theorem counts_sum_to_total (E : env) (content : string) (st : fs)
    (s : summary) (rs : list row) :
  fst (analyze_pdf E content st) = Ok (s, rs) ->
  Forall (fun r => known_status (status r)) rs ->
  total_controls s = length rs
  /\ met_count s + partially_met_count s + not_met_count s = total_controls s.
Proof.
  intros Hrun Hknown. apply analyze_pdf_ok in Hrun as (text & _ & _ & ->).
  split; [reflexivity|]. cbn [summarize met_count partially_met_count not_met_count total_controls].
  now apply counts_eq_length.
Qed.

Lemma counts_sum_to_total_witness :
  total_controls (summarize Demo.results_known) = length Demo.results_known
  /\ met_count (summarize Demo.results_known)
     + partially_met_count (summarize Demo.results_known)
     + not_met_count (summarize Demo.results_known)
     = total_controls (summarize Demo.results_known).
Proof.
  apply (counts_sum_to_total Demo.world_known Demo.upload Demo.disk
           (summarize Demo.results_known) Demo.results_known).
  - vm_compute. reflexivity.
  - unfold Demo.results_known.
    repeat (apply List.Forall_cons; [cbv; auto|]). apply List.Forall_nil.
Defined.

(** C1, as stated, fails: a reply whose status is [COMPLIANT] is accepted
    and counted by none of the three sums. *)
Lemma unknown_status_breaks_sum :
  Demo.catalog3 <> []
  /\ fst (analyze_pdf Demo.world_unknown Demo.upload Demo.disk)
     = Ok (summarize Demo.results_unknown, Demo.results_unknown)
  /\ met_count (summarize Demo.results_unknown)
     + partially_met_count (summarize Demo.results_unknown)
     + not_met_count (summarize Demo.results_unknown)
     <> total_controls (summarize Demo.results_unknown).
Proof.
  split; [discriminate|]. split; [vm_compute; reflexivity|].
  vm_compute. discriminate.
Qed.




(** C4: if the judge raises on some control of the catalog, be it the
    last of ten after nine good verdicts, the request raises: it returns
    no summary, and it leaves the file system as it found it, so that
    neither [reports/report.html] nor [reports/report.pdf] is written or
    updated.  The temporary name is one no file bears, as
    [NamedTemporaryFile] ensures. *)
Theorem judge_failure_aborts_request (E : env) (content text : string) (st : fs)
    (k : nat) (c : control) (e : exn) :
  files st !! temp_path E = None ->
  extract_text E content = Ok text ->
  iso_controls E !! k = Some c ->
  judge E k c text = Raise e ->
  exists e', analyze_pdf E content st = (Raise e', st).
Proof.
  intros Hfresh Htext Hk Hj. rewrite analyze_pdf_unfold.
  destruct (analyze_body_judge_raises E content text st k c e Htext Hk Hj) as [e' ->].
  exists e'. cbn [fst snd]. now rewrite cleaned_saved.
Qed.

Lemma judge_failure_aborts_request_witness :
  exists e', analyze_pdf Demo.world_tenth Demo.upload Demo.disk = (Raise e', Demo.disk).
Proof.
  apply (judge_failure_aborts_request Demo.world_tenth Demo.upload Demo.policy_text
           Demo.disk 9 Demo.c10 (KeyError "recommendation")).
  - vm_compute. reflexivity.
  - vm_compute. reflexivity.
  - reflexivity.
  - vm_compute. reflexivity.
Defined.

(** C3, as amended: the row rendered for a result embeds its cells, among
    them the free-text fields title, domain, justification and
    recommendation, only after [escape_html], which writes each of the
    four characters [&], [<], [>] and the double quote as its entity and
    leaves every other character, the apostrophe included, as it is.  So
    no [<], [>] or double quote of a field stands raw in its cell, every
    [&] there opens an entity, and a justification holding a script tag,
    an ampersand and a double quote is embedded as
    [&lt;script&gt;&amp;&quot;]. *)
Theorem free_text_fields_escaped (E : env) (r : row) (text : string) :
  render_row E r = Ok text ->
  exists risk_cls,
    risk_class E r = Ok risk_cls
    /\ text = row_html (status_class r) risk_cls
               (escape_text (control_id r)) (escape_text (control_title r))
               (escape_text (domain r)) (escape_text (str E (status r)))
               (escape_text (str E (risk_level r)))
               (escape_text (str E (justification r)))
               (escape_text (str E (recommendation r)))
    /\ Forall (fun cell => escaped_for metachars4 cell = true)
         [escape_text (control_title r); escape_text (domain r);
          escape_text (str E (justification r)); escape_text (str E (recommendation r))]
    /\ escape_html E (JStr ("<script>&" +:+ dq)) = "&lt;script&gt;&amp;&quot;".
Proof.
  unfold render_row. intros H. apply bind_ok in H as (risk_cls & Hrisk & H).
  injection H as <-. exists risk_cls. split; [assumption|].
  rewrite !escape_html_flat. cbn [str]. split; [reflexivity|]. split; [|reflexivity].
  repeat (apply List.Forall_cons; [apply escape_text_escaped|]). apply List.Forall_nil.
Qed.

Lemma free_text_fields_escaped_witness :
  exists risk_cls,
    risk_class Demo.world_known Demo.r_script = Ok risk_cls
    /\ Demo.r_script_text
       = row_html (status_class Demo.r_script) risk_cls
           (escape_text (control_id Demo.r_script))
           (escape_text (control_title Demo.r_script))
           (escape_text (domain Demo.r_script))
           (escape_text (str Demo.world_known (status Demo.r_script)))
           (escape_text (str Demo.world_known (risk_level Demo.r_script)))
           (escape_text (str Demo.world_known (justification Demo.r_script)))
           (escape_text (str Demo.world_known (recommendation Demo.r_script)))
    /\ Forall (fun cell => escaped_for metachars4 cell = true)
         [escape_text (control_title Demo.r_script); escape_text (domain Demo.r_script);
          escape_text (str Demo.world_known (justification Demo.r_script));
          escape_text (str Demo.world_known (recommendation Demo.r_script))]
    /\ escape_html Demo.world_known (JStr ("<script>&" +:+ dq)) = "&lt;script&gt;&amp;&quot;".
Proof.
  apply (free_text_fields_escaped Demo.world_known Demo.r_script Demo.r_script_text).
  vm_compute. reflexivity.
Defined.

(** C3, as stated, fails: the apostrophe is one of the five markup
    metacharacters and [escape_html] leaves it raw, in the text it returns
    and in the row rendered from it. *)
Lemma apostrophe_left_raw :
  In apostrophe metachars5
  /\ escape_html Demo.world_known (JStr "it's missing") = "it's missing"
  /\ escaped_for metachars5 (escape_html Demo.world_known (JStr "it's missing")) = false
  /\ render_row Demo.world_known Demo.r_script = Ok Demo.r_script_text
  /\ contains "it's missing" Demo.r_script_text = true
  /\ contains "<script>" Demo.r_script_text = false.
Proof.
  split; [simpl; tauto|]. repeat split; vm_compute; reflexivity.
Qed.



(** C6: after a run that returns, the results list has one entry per
    catalog entry, in catalog order: the result at index [i] carries the
    [new_control_id] of the control at index [i]. *)
Theorem results_follow_catalog (E : env) (content : string) (st : fs)
    (s : summary) (rs : list row) :
  fst (analyze_pdf E content st) = Ok (s, rs) ->
  length rs = length (iso_controls E)
  /\ List.map control_id rs = List.map new_control_id (iso_controls E)
  /\ forall i c, iso_controls E !! i = Some c ->
       exists r, rs !! i = Some r /\ control_id r = new_control_id c.
Proof.
  intros Hrun. apply analyze_pdf_ok in Hrun as (text & _ & Hloop & _).
  pose proof (analyze_each_identity E _ _ _ _ _ Hloop) as Hid. cbn [List.map app] in Hid.
  apply analyze_each_ok in Hloop as (new & -> & Hlen & Hnew). cbn [app] in *.
  split; [assumption|]. split.
  - apply (f_equal (List.map (fun t => fst (fst t)))) in Hid.
    rewrite !List.map_map in Hid. exact Hid.
  - intros i c Hi. destruct (Hnew i c Hi) as (r & Hr & Hj). exists r. split; [assumption|].
    apply judge_identity in Hj. now injection Hj.
Qed.

Lemma results_follow_catalog_witness :
  length Demo.results_known = length (iso_controls Demo.world_known)
  /\ List.map control_id Demo.results_known
     = List.map new_control_id (iso_controls Demo.world_known)
  /\ forall i c, iso_controls Demo.world_known !! i = Some c ->
       exists r, Demo.results_known !! i = Some r /\ control_id r = new_control_id c.
Proof.
  apply (results_follow_catalog Demo.world_known Demo.upload Demo.disk
           (summarize Demo.results_known) Demo.results_known).
  vm_compute. reflexivity.
Defined.


(** C8: for every list of results, whatever their statuses, the three
    counts add up to at most [total_controls], each count is at most
    [total_controls], and a result whose status is none of the three
    literals raises [total_controls] by one and no count. *)
Theorem counts_bounded (rs : list row) :
  met_count (summarize rs) + partially_met_count (summarize rs) + not_met_count (summarize rs)
  <= total_controls (summarize rs)
  /\ met_count (summarize rs) <= total_controls (summarize rs)
  /\ partially_met_count (summarize rs) <= total_controls (summarize rs)
  /\ not_met_count (summarize rs) <= total_controls (summarize rs)
  /\ forall r,
       eq_str (status r) "MET" = false ->
       eq_str (status r) "PARTIALLY MET" = false ->
       eq_str (status r) "NOT MET" = false ->
       met_count (summarize (rs ++ [r])) = met_count (summarize rs)
       /\ partially_met_count (summarize (rs ++ [r])) = partially_met_count (summarize rs)
       /\ not_met_count (summarize (rs ++ [r])) = not_met_count (summarize rs)
       /\ total_controls (summarize (rs ++ [r])) = S (total_controls (summarize rs)).
Proof.
  cbn [summarize met_count partially_met_count not_met_count total_controls].
  pose proof (counts_le_length rs) as Hsum.
  repeat (split; [lia|]).
  intros r Hmet Hpartial Hnot.
  rewrite !count_status_app, !count_status_cons, Hmet, Hpartial, Hnot.
  rewrite length_app. unfold count_status. simpl. lia.
Qed.

Lemma counts_bounded_witness :
  met_count (summarize (Demo.results_known ++ [Demo.r_compliant Demo.c1]))
  = met_count (summarize Demo.results_known)
  /\ partially_met_count (summarize (Demo.results_known ++ [Demo.r_compliant Demo.c1]))
     = partially_met_count (summarize Demo.results_known)
  /\ not_met_count (summarize (Demo.results_known ++ [Demo.r_compliant Demo.c1]))
     = not_met_count (summarize Demo.results_known)
  /\ total_controls (summarize (Demo.results_known ++ [Demo.r_compliant Demo.c1]))
     = S (total_controls (summarize Demo.results_known)).
Proof.
  destruct (counts_bounded Demo.results_known) as (_ & _ & _ & _ & Hunknown).
  apply (Hunknown (Demo.r_compliant Demo.c1)); reflexivity.
Defined.

(** C9: the identifying fields of the results come from the catalog
    alone: two runs that return over the same catalog, whatever the
    uploads, the replies of the service and the other collaborators, give
    results with the same [control_id], [control_title] and [domain] at
    every position, those of the catalog. *)
Theorem identity_independent_of_oracle (E1 E2 : env) (content1 content2 : string)
    (st1 st2 : fs) (s1 s2 : summary) (rs1 rs2 : list row) :
  iso_controls E1 = iso_controls E2 ->
  fst (analyze_pdf E1 content1 st1) = Ok (s1, rs1) ->
  fst (analyze_pdf E2 content2 st2) = Ok (s2, rs2) ->
  List.map identity rs1 = List.map control_identity (iso_controls E1)
  /\ List.map identity rs1 = List.map identity rs2.
Proof.
  intros Hcat Hrun1 Hrun2.
  apply analyze_pdf_ok in Hrun1 as (text1 & _ & Hloop1 & _).
  apply analyze_pdf_ok in Hrun2 as (text2 & _ & Hloop2 & _).
  apply analyze_each_identity in Hloop1, Hloop2. cbn [List.map app] in *.
  split; [assumption|]. now rewrite Hloop1, Hloop2, Hcat.
Qed.

Lemma identity_independent_of_oracle_witness :
  List.map identity Demo.results_known
  = List.map control_identity (iso_controls Demo.world_known)
  /\ List.map identity Demo.results_known = List.map identity Demo.results_unknown.
Proof.
  apply (identity_independent_of_oracle Demo.world_known Demo.world_unknown
           Demo.upload Demo.upload Demo.disk Demo.disk
           (summarize Demo.results_known) (summarize Demo.results_unknown)).
  - reflexivity.
  - vm_compute. reflexivity.
  - vm_compute. reflexivity.
Defined.

(** C10: the class of the status cell is [status-met] exactly when the
    status is the string [MET], [status-partially-met] exactly when it is
    the string [PARTIALLY MET], and [status-not-met] for every other
    value, recognised or not; the rendered row tags the status cell with
    that class. *)
Theorem status_class_by_exact_match (r : row) :
  (status_class r = "status-met" <-> status r = JStr "MET")
  /\ (status_class r = "status-partially-met" <-> status r = JStr "PARTIALLY MET")
  /\ (status_class r = "status-not-met"
      <-> status r <> JStr "MET" /\ status r <> JStr "PARTIALLY MET")
  /\ forall (E : env) (text : string),
       render_row E r = Ok text ->
       exists before after,
         text = before +:+ ("<td><span class=" +:+ dq +:+ status_class r +:+ dq +:+ ">"
                            +:+ escape_html E (status r) +:+ "</span></td>") +:+ after.
Proof.
  split; [|split; [|split]]; [| | |intros E text; apply render_row_status_cell];
    destruct (status_class_cases r) as [[Hs Hc] | [[Hs Hc] | (Hn1 & Hn2 & Hc)]];
    rewrite Hc;
    (split;
     [ intros H; try discriminate H; try assumption; try (split; assumption)
     | intros H; try reflexivity; try congruence; try (destruct H; congruence) ]).
Qed.

Lemma status_class_by_exact_match_witness :
  status_class (Demo.r_compliant Demo.c3) = "status-not-met".
Proof.
  destruct (status_class_by_exact_match (Demo.r_compliant Demo.c3)) as (_ & _ & Hother & _).
  apply Hother. split; discriminate.
Defined.

(** * Further properties of [main.py] *)

(** ** The judge and the loop *)

Section Judge.

Context (E : env).

(** The loop returns the results of the judge when every call returns. *)
Lemma analyze_each_all_ok (controls : list control) :
  forall (i : nat) (text : string) (acc new : list row),
    length new = length controls ->
    (forall k c, controls !! k = Some c ->
       exists r, new !! k = Some r /\ judge E (i + k) c text = Ok r) ->
    analyze_each E i controls text acc = Ok (acc ++ new)%list.
Proof.
  induction controls as [|c rest IH]; intros i text acc new Hlen Hall.
  - destruct new; [|discriminate]. simpl. now rewrite app_nil_r.
  - destruct new as [|r new]; [discriminate|].
    rewrite analyze_each_cons.
    destruct (Hall 0 c eq_refl) as (r0 & Hr0 & Hj). injection Hr0 as <-.
    rewrite Nat.add_0_r in Hj. rewrite Hj. cbn [bind].
    rewrite (IH (S i) text (acc ++ [r])%list new).
    + now rewrite <- app_assoc.
    + simpl in Hlen. lia.
    + intros k c' Hk. destruct (Hall (S k) c' Hk) as (r' & Hr' & Hj').
      exists r'. split; [assumption|]. now rewrite Nat.add_succ_comm.
Qed.

(** The loop raises what the first failing call raises. *)
Lemma analyze_each_first_failure (controls : list control) :
  forall (i k : nat) (c : control) (text : string) (acc : list row) (e : exn),
    (forall j cj, j < k -> controls !! j = Some cj ->
       exists r, judge E (i + j) cj text = Ok r) ->
    controls !! k = Some c ->
    judge E (i + k) c text = Raise e ->
    analyze_each E i controls text acc = Raise e.
Proof.
  induction controls as [|c0 rest IH]; intros i k c text acc e Hbefore Hk Hj;
    [discriminate|].
  rewrite analyze_each_cons. destruct k as [|k].
  - injection Hk as ->. rewrite Nat.add_0_r in Hj. now rewrite Hj.
  - destruct (Hbefore 0 c0 (Nat.lt_0_succ k) eq_refl) as [r0 Hr0].
    rewrite Nat.add_0_r in Hr0. rewrite Hr0. cbn [bind].
    apply (IH (S i) k c); [|assumption|now rewrite Nat.add_succ_comm].
    intros j cj Hlt Hcj. destruct (Hbefore (S j) cj) as [r Hr]; [lia|assumption|].
    exists r. now rewrite Nat.add_succ_comm.
Qed.

End Judge.

(** [analyze_control] returns exactly when the call got a success
    response whose JSON body holds a non-empty list [choices], whose first
    element holds an object [message], whose [content] is a string that
    [json.loads] decodes; it returns the decoded value. *)
Theorem analyze_control_returns_iff (E : env) (i : nat) (c : control)
    (text : string) (v : json) :
  analyze_control E i c text = Ok v
  <-> exists data choice rest message content,
        oracle E i c text = Response true (Some data)
        /\ getitem data "choices" = Ok (JArr (choice :: rest))
        /\ getitem choice "message" = Ok message
        /\ getitem message "content" = Ok (JStr content)
        /\ json_loads E content = Some v.
Proof.
  unfold analyze_control. split.
  - destruct (oracle E i c text) as [|[|] [data|]]; try discriminate. cbn [response_json bind].
    intros H. apply bind_ok in H as (choices & Hchoices & H).
    apply bind_ok in H as (choice & Hchoice & H).
    apply bind_ok in H as (message & Hmessage & H).
    apply bind_ok in H as (content & Hcontent & H).
    destruct choices as [| | | |s|[|ch rest]|items]; try discriminate Hchoice.
    + destruct s; [discriminate Hchoice|]. injection Hchoice as <-. discriminate Hmessage.
    + injection Hchoice as ->.
      destruct content as [| | | |t| |]; try discriminate H.
      unfold loads in H. destruct (json_loads E t) as [d|] eqn:Hd; [|discriminate H].
      injection H as ->. exists data, choice, rest, message, t. repeat split; assumption.
  - intros (data & choice & rest & message & content & -> & Hc & Hm & Ht & Hd).
    cbn [response_json bind]. rewrite Hc. cbn [bind getitem0]. rewrite Hm. cbn [bind].
    rewrite Ht. cbn [bind loads]. now rewrite Hd.
Qed.

Lemma analyze_control_returns_iff_witness :
  analyze_control Demo.world_known 0 Demo.c1 Demo.policy_text
  = Ok (Demo.verdict "MET" "LOW" Demo.ju_found Demo.re_keep).
Proof.
  apply (analyze_control_returns_iff Demo.world_known 0 Demo.c1 Demo.policy_text).
  eexists _, _, _, _, _. repeat split; vm_compute; reflexivity.
Defined.

(** The loop over the catalog returns exactly when the judge returns for
    every control, and then the results are those of the judge, in
    catalog order. *)
Theorem analyze_each_returns_iff (E : env) (controls : list control)
    (text : string) (rs : list row) :
  analyze_each E 0 controls text [] = Ok rs
  <-> length rs = length controls
      /\ forall k c, controls !! k = Some c ->
           exists r, rs !! k = Some r /\ judge E k c text = Ok r.
Proof.
  split.
  - intros H. apply analyze_each_ok in H as (new & -> & Hlen & Hnew).
    cbn [app]. split; assumption.
  - intros [Hlen Hall]. now apply (analyze_each_all_ok E controls 0 text [] rs).
Qed.

Lemma analyze_each_returns_iff_witness :
  analyze_each Demo.world_known 0 Demo.catalog3 Demo.policy_text [] = Ok Demo.results_known.
Proof.
  apply (analyze_each_returns_iff Demo.world_known Demo.catalog3 Demo.policy_text
           Demo.results_known).
  split; [reflexivity|].
  intros [|[|[|k]]] c Hk; try discriminate Hk; injection Hk as <-;
    eexists; (split; [reflexivity | vm_compute; reflexivity]).
Defined.

(** The request raises the exception of the first control on which the
    judge raises: the controls after it are not judged. *)
Theorem first_failure_is_raised (E : env) (content text : string) (st : fs)
    (k : nat) (c : control) (e : exn) :
  extract_text E content = Ok text ->
  (forall j cj, j < k -> iso_controls E !! j = Some cj ->
     exists r, judge E j cj text = Ok r) ->
  iso_controls E !! k = Some c ->
  judge E k c text = Raise e ->
  fst (analyze_pdf E content st) = Raise e.
Proof.
  intros Htext Hbefore Hk Hj.
  rewrite analyze_pdf_unfold, analyze_body_unfold, Htext. cbn [fst].
  now rewrite (analyze_each_first_failure E (iso_controls E) 0 k c text [] e Hbefore Hk Hj).
Qed.

Lemma first_failure_is_raised_witness :
  fst (analyze_pdf Demo.world_two_failures Demo.upload Demo.disk) = Raise HTTPError.
Proof.
  apply (first_failure_is_raised Demo.world_two_failures Demo.upload Demo.policy_text
           Demo.disk 1 Demo.c2 HTTPError).
  - vm_compute. reflexivity.
  - intros [|j] cj Hlt Hcj; [|lia]. injection Hcj as <-.
    eexists. vm_compute. reflexivity.
  - reflexivity.
  - vm_compute. reflexivity.
Defined.

(** ** The reports *)

Section Reports.

Context (E : env).

Lemma render_row_raise (r : row) (e : exn) :
  render_row E r = Raise e -> e = AttributeError /\ forall t, risk_level r <> JStr t.
Proof.
  unfold render_row, risk_class. destruct (risk_level r); cbn [bind]; intros H;
    try (injection H as <-; split; [reflexivity | discriminate]); discriminate H.
Qed.

Lemma render_row_ok (r : row) (text : string) :
  render_row E r = Ok text -> exists t, risk_level r = JStr t.
Proof.
  unfold render_row, risk_class. destruct (risk_level r); cbn [bind]; intros H;
    try discriminate H. eauto.
Qed.

(** The rows are rendered exactly when every risk level is a string;
    otherwise the loop raises [AttributeError]. *)
Lemma render_rows_cases (results : list row) :
  forall html_content,
    (Forall (fun r => exists t, risk_level r = JStr t) results
     /\ exists out, render_rows E results html_content = Ok out)
    \/ ((exists r, In r results /\ forall t, risk_level r <> JStr t)
        /\ render_rows E results html_content = Raise AttributeError).
Proof.
  induction results as [|r rest IH]; intros html_content.
  - left. split; [constructor | now exists html_content].
  - cbn [render_rows]. destruct (render_row E r) as [text|e] eqn:Hrow; cbn [bind].
    + apply render_row_ok in Hrow.
      destruct (IH (html_content +:+ text)) as [[Hall Hout] | [(r' & Hin & Hr') Hraise]].
      * left. split; [now constructor | assumption].
      * right. split; [|assumption]. exists r'. split; [now right | assumption].
    + apply render_row_raise in Hrow as [-> Hr]. right. split; [|reflexivity].
      exists r. split; [now left | assumption].
Qed.

Lemma cleaned_files (st : fs) :
  files (cleaned E st) = delete (temp_path E) (files st) /\ dirs (cleaned E st) = dirs st.
Proof.
  unfold cleaned, path_exists.
  destruct (bool_decide (is_Some (files st !! temp_path E))) eqn:Hfile; cbn [orb].
  - split; reflexivity.
  - apply bool_decide_eq_false in Hfile.
    assert (Hnone : files st !! temp_path E = None).
    { destruct (files st !! temp_path E) eqn:Hl; [|reflexivity]. exfalso. apply Hfile. eauto. }
    destruct (bool_decide (temp_path E ∈ dirs st)); cbn [files dirs]; split;
      try reflexivity. now rewrite delete_id.
Qed.

(** What [generate_html_report] does to a file system. *)
Lemma generate_html_report_run (s : summary) (results : list row) (st : fs) :
  exists st',
    (dirs st' = dirs st \/ dirs st' = {[reports_dir]} ∪ dirs st)
    /\ match render_rows E results (page_head E (now E) s) with
       | Raise e =>
           generate_html_report E s results st = (Raise e, st') /\ files st' = files st
       | Ok html =>
           generate_html_report E s results st = (Ok report_html_path, st')
           /\ files st' = <[report_html_path := html +:+ page_foot]> (files st)
       end.
Proof.
  unfold generate_html_report, io_bind, io_lift, io_ret, write_file, makedirs.
  destruct (path_exists reports_dir st);
    destruct (render_rows E results _) as [html|e];
    eexists; (split; [|split; reflexivity]); cbn [dirs]; auto.
Qed.

(** What [generate_pdf_report] does once the HTML report is in place. *)
Lemma generate_pdf_report_run (html : string) (st : fs) :
  files st !! report_html_path = Some html ->
  generate_pdf_report E report_html_path st
  = match write_pdf E html with
    | Raise e => (Raise e, st)
    | Ok pdf =>
        (Ok report_pdf_path,
         {| files := <[report_pdf_path := pdf]> (files st); dirs := dirs st |})
    end.
Proof.
  intros Hhtml.
  unfold generate_pdf_report, io_bind, io_lift, io_ret, read_file, write_file.
  rewrite Hhtml. now destruct (write_pdf E html).
Qed.

(** The [try] block after the loop has returned. *)
Lemma analyze_body_rendering (content text : string) (st : fs) (rs : list row) :
  extract_text E content = Ok text ->
  analyze_each E 0 (iso_controls E) text [] = Ok rs ->
  exists st2,
    (dirs st2 = dirs st \/ dirs st2 = {[reports_dir]} ∪ dirs st)
    /\ match render_rows E rs (page_head E (now E) (summarize rs)) with
       | Raise e =>
           analyze_body E (saved E content st) = (Raise e, st2)
           /\ files st2 = files (saved E content st)
       | Ok html =>
           match write_pdf E (html +:+ page_foot) with
           | Raise e =>
               analyze_body E (saved E content st) = (Raise e, st2)
               /\ files st2
                  = <[report_html_path := html +:+ page_foot]> (files (saved E content st))
           | Ok pdf =>
               analyze_body E (saved E content st) = (Ok (summarize rs, rs), st2)
               /\ files st2
                  = <[report_pdf_path := pdf]>
                      (<[report_html_path := html +:+ page_foot]>
                         (files (saved E content st)))
           end
       end.
Proof.
  intros Htext Hloop.
  pose proof (analyze_body_unfold E content st) as Hbody. rewrite Htext, Hloop in Hbody.
  destruct (generate_html_report_run (summarize rs) rs (saved E content st))
    as (st1 & Hdirs & Hrun).
  unfold io_bind at 1 in Hbody.
  destruct (render_rows E rs _) as [html|e]; destruct Hrun as [Hgen Hfiles];
    rewrite Hgen in Hbody.
  - unfold io_bind at 1 in Hbody.
    rewrite (generate_pdf_report_run (html +:+ page_foot) st1) in Hbody
      by (rewrite Hfiles; apply lookup_insert_eq).
    destruct (write_pdf E (html +:+ page_foot)) as [pdf|e].
    + eexists. split; [|split; [exact Hbody|]]; cbn [files dirs]; [exact Hdirs|].
      now rewrite Hfiles.
    + exists st1. split; [exact Hdirs|]. split; [exact Hbody | assumption].
  - exists st1. split; [exact Hdirs|]. split; [exact Hbody | assumption].
Qed.

End Reports.

(** ** The outcomes of a request *)

Lemma analyze_pdf_returns (E : env) (content : string) (st : fs)
    (s : summary) (rs : list row) :
  fst (analyze_pdf E content st) = Ok (s, rs)
  <-> exists text html pdf,
        extract_text E content = Ok text
        /\ analyze_each E 0 (iso_controls E) text [] = Ok rs
        /\ s = summarize rs
        /\ Forall (fun r => exists t, risk_level r = JStr t) rs
        /\ render_rows E rs (page_head E (now E) s) = Ok html
        /\ write_pdf E (html +:+ page_foot) = Ok pdf.
Proof.
  split.
  - intros H. pose proof H as H0.
    apply analyze_pdf_ok in H0 as (text & Htext & Hloop & ->). exists text.
    rewrite analyze_pdf_unfold in H. cbn [fst] in H.
    destruct (analyze_body_rendering E content text st rs Htext Hloop) as (st2 & _ & Hrun).
    destruct (render_rows_cases E rs (page_head E (now E) (summarize rs)))
      as [[Hall _] | [_ Hraise]].
    + destruct (render_rows E rs _) as [html|e] eqn:Hrows.
      * destruct (write_pdf E (html +:+ page_foot)) as [pdf|e] eqn:Hpdf.
        -- exists html, pdf. repeat split; first [assumption | reflexivity].
        -- destruct Hrun as [Hrun _]. rewrite Hrun in H. discriminate H.
      * destruct Hrun as [Hrun _]. rewrite Hrun in H. discriminate H.
    + rewrite Hraise in Hrun. destruct Hrun as [Hrun _]. rewrite Hrun in H. discriminate H.
  - intros (text & html & pdf & Htext & Hloop & -> & _ & Hrows & Hpdf).
    rewrite analyze_pdf_unfold. cbn [fst].
    destruct (analyze_body_rendering E content text st rs Htext Hloop) as (st2 & _ & Hrun).
    rewrite Hrows, Hpdf in Hrun. destruct Hrun as [-> _]. reflexivity.
Qed.



(** After a request that returns, [reports/report.html] holds the head,
    the rows of the results and the foot, [reports/report.pdf] holds what
    WeasyPrint printed from that very page, and both download routes
    answer with these files.  The temporary name is neither report path. *)
Theorem returned_request_leaves_both_reports (E : env) (content : string) (st : fs)
    (s : summary) (rs : list row) :
  temp_path E <> report_html_path ->
  temp_path E <> report_pdf_path ->
  fst (analyze_pdf E content st) = Ok (s, rs) ->
  exists html pdf,
    render_rows E rs (page_head E (now E) s) = Ok html
    /\ write_pdf E (html +:+ page_foot) = Ok pdf
    /\ files (snd (analyze_pdf E content st)) !! report_html_path = Some (html +:+ page_foot)
    /\ files (snd (analyze_pdf E content st)) !! report_pdf_path = Some pdf
    /\ download_report (snd (analyze_pdf E content st))
       = FileResponse report_html_path "iso_27001_report.html" "text/html"
    /\ download_report_pdf (snd (analyze_pdf E content st))
       = FileResponse report_pdf_path "iso_27001_report.pdf" "application/pdf".
Proof.
  intros Hne1 Hne2 H.
  apply analyze_pdf_returns in H as (text & html & pdf & Htext & Hloop & -> & _ & Hrows & Hpdf).
  exists html, pdf. split; [assumption|]. split; [assumption|].
  rewrite analyze_pdf_unfold. cbn [snd].
  destruct (analyze_body_rendering E content text st rs Htext Hloop) as (st2 & _ & Hrun).
  rewrite Hrows, Hpdf in Hrun. destruct Hrun as [-> Hfiles]. cbn [snd].
  destruct (cleaned_files E st2) as [Hclean _].
  assert (Hhtml : files (cleaned E st2) !! report_html_path = Some (html +:+ page_foot)).
  { rewrite Hclean, Hfiles, lookup_delete_ne by assumption.
    rewrite lookup_insert_ne by discriminate. apply lookup_insert_eq. }
  assert (Hprinted : files (cleaned E st2) !! report_pdf_path = Some pdf).
  { rewrite Hclean, Hfiles, lookup_delete_ne by assumption. apply lookup_insert_eq. }
  split; [assumption|]. split; [assumption|].
  unfold download_report, download_report_pdf, path_exists.
  change (path_join "reports" "report.html") with report_html_path.
  change (path_join "reports" "report.pdf") with report_pdf_path.
  rewrite Hhtml, Hprinted.
  rewrite !bool_decide_eq_true_2 by eauto. split; reflexivity.
Qed.

Lemma returned_request_leaves_both_reports_witness :
  exists html pdf,
    render_rows Demo.world_known Demo.results_known
      (page_head Demo.world_known (now Demo.world_known) (summarize Demo.results_known))
    = Ok html
    /\ write_pdf Demo.world_known (html +:+ page_foot) = Ok pdf
    /\ files (snd (analyze_pdf Demo.world_known Demo.upload Demo.disk)) !! report_html_path
       = Some (html +:+ page_foot)
    /\ files (snd (analyze_pdf Demo.world_known Demo.upload Demo.disk)) !! report_pdf_path
       = Some pdf
    /\ download_report (snd (analyze_pdf Demo.world_known Demo.upload Demo.disk))
       = FileResponse report_html_path "iso_27001_report.html" "text/html"
    /\ download_report_pdf (snd (analyze_pdf Demo.world_known Demo.upload Demo.disk))
       = FileResponse report_pdf_path "iso_27001_report.pdf" "application/pdf".
Proof.
  apply (returned_request_leaves_both_reports Demo.world_known Demo.upload Demo.disk
           (summarize Demo.results_known) Demo.results_known).
  - discriminate.
  - discriminate.
  - vm_compute. reflexivity.
Defined.

(** When WeasyPrint raises, the request raises the same exception after
    [reports/report.html] has been replaced by the page of this run, while
    [reports/report.pdf] is what it was: the two reports no longer show
    the same run. *)
Theorem pdf_failure_leaves_new_html (E : env) (content text html : string) (st : fs)
    (rs : list row) (e : exn) :
  temp_path E <> report_html_path ->
  temp_path E <> report_pdf_path ->
  extract_text E content = Ok text ->
  analyze_each E 0 (iso_controls E) text [] = Ok rs ->
  render_rows E rs (page_head E (now E) (summarize rs)) = Ok html ->
  write_pdf E (html +:+ page_foot) = Raise e ->
  fst (analyze_pdf E content st) = Raise e
  /\ files (snd (analyze_pdf E content st)) !! report_html_path = Some (html +:+ page_foot)
  /\ files (snd (analyze_pdf E content st)) !! report_pdf_path
     = files st !! report_pdf_path.
Proof.
  intros Hne1 Hne2 Htext Hloop Hrows Hpdf. rewrite analyze_pdf_unfold. cbn [fst snd].
  destruct (analyze_body_rendering E content text st rs Htext Hloop) as (st2 & _ & Hrun).
  rewrite Hrows, Hpdf in Hrun. destruct Hrun as [-> Hfiles]. cbn [fst snd].
  destruct (cleaned_files E st2) as [-> _]. rewrite Hfiles. unfold saved. cbn [files].
  split; [reflexivity|]. split.
  - rewrite lookup_delete_ne by assumption. apply lookup_insert_eq.
  - rewrite lookup_delete_ne by assumption.
    rewrite lookup_insert_ne by discriminate. now rewrite lookup_insert_ne.
Qed.

Lemma pdf_failure_leaves_new_html_witness :
  fst (analyze_pdf Demo.world_no_pdf Demo.upload Demo.disk) = Raise RenderError
  /\ files (snd (analyze_pdf Demo.world_no_pdf Demo.upload Demo.disk)) !! report_html_path
     = Some (Demo.page_known +:+ page_foot)
  /\ files (snd (analyze_pdf Demo.world_no_pdf Demo.upload Demo.disk)) !! report_pdf_path
     = files Demo.disk !! report_pdf_path.
Proof.
  apply (pdf_failure_leaves_new_html Demo.world_no_pdf Demo.upload Demo.policy_text
           Demo.page_known Demo.disk Demo.results_known RenderError).
  - discriminate.
  - discriminate.
  - vm_compute. reflexivity.
  - vm_compute. reflexivity.
  - vm_compute. reflexivity.
  - reflexivity.
Defined.

(** A reply with the four fields whose [risk_level] is not a string is
    accepted by the loop and makes the request raise [AttributeError]
    while the rows are rendered: no file is written, the earlier reports
    stay.  The temporary name is one no file bears. *)
Theorem non_string_risk_level_fails (E : env) (content text : string) (st : fs)
    (rs : list row) (r : row) :
  files st !! temp_path E = None ->
  extract_text E content = Ok text ->
  analyze_each E 0 (iso_controls E) text [] = Ok rs ->
  In r rs ->
  (forall t, risk_level r <> JStr t) ->
  fst (analyze_pdf E content st) = Raise AttributeError
  /\ files (snd (analyze_pdf E content st)) = files st.
Proof.
  intros Hfresh Htext Hloop Hin Hrisk. rewrite analyze_pdf_unfold. cbn [fst snd].
  destruct (analyze_body_rendering E content text st rs Htext Hloop) as (st2 & _ & Hrun).
  destruct (render_rows_cases E rs (page_head E (now E) (summarize rs)))
    as [[Hall _] | [_ Hraise]].
  - exfalso. rewrite List.Forall_forall in Hall. destruct (Hall r Hin) as [t Ht].
    exact (Hrisk t Ht).
  - rewrite Hraise in Hrun. destruct Hrun as [-> Hfiles]. cbn [fst snd].
    split; [reflexivity|].
    destruct (cleaned_files E st2) as [-> _]. rewrite Hfiles. unfold saved. cbn [files].
    now rewrite delete_insert_eq, delete_id.
Qed.

Lemma non_string_risk_level_fails_witness :
  fst (analyze_pdf Demo.world_null_risk Demo.upload Demo.disk) = Raise AttributeError
  /\ files (snd (analyze_pdf Demo.world_null_risk Demo.upload Demo.disk)) = files Demo.disk.
Proof.
  apply (non_string_risk_level_fails Demo.world_null_risk Demo.upload Demo.policy_text
           Demo.disk Demo.results_null_risk (Demo.r_null_risk Demo.c2)).
  - vm_compute. reflexivity.
  - vm_compute. reflexivity.
  - vm_compute. reflexivity.
  - simpl. tauto.
  - intros t Ht. discriminate Ht.
Defined.

(** When the text cannot be extracted the request raises what the
    extractor raised and leaves the file system as it found it; the
    temporary name is one no file bears. *)
Theorem extraction_failure_aborts_request (E : env) (content : string) (st : fs) (e : exn) :
  files st !! temp_path E = None ->
  extract_text E content = Raise e ->
  analyze_pdf E content st = (Raise e, st).
Proof.
  intros Hfresh Htext. rewrite analyze_pdf_unfold, analyze_body_unfold, Htext.
  cbn [fst snd]. now rewrite cleaned_saved.
Qed.

Lemma extraction_failure_aborts_request_witness :
  analyze_pdf Demo.world_bad_upload Demo.upload Demo.disk = (Raise PDFSyntaxError, Demo.disk).
Proof.
  apply (extraction_failure_aborts_request Demo.world_bad_upload Demo.upload Demo.disk).
  - vm_compute. reflexivity.
  - reflexivity.
Defined.

(** Whatever its outcome, a request leaves every file other than the
    temporary file and the two reports as it was, and creates no
    directory other than [reports]. *)
Theorem request_touches_only_its_files (E : env) (content : string) (st : fs) :
  (forall p, p <> temp_path E -> p <> report_html_path -> p <> report_pdf_path ->
     files (snd (analyze_pdf E content st)) !! p = files st !! p)
  /\ (dirs (snd (analyze_pdf E content st)) = dirs st
      \/ dirs (snd (analyze_pdf E content st)) = {[reports_dir]} ∪ dirs st).
Proof.
  rewrite analyze_pdf_unfold. cbn [snd].
  destruct (cleaned_files E (snd (analyze_body E (saved E content st)))) as [-> ->].
  assert (Hbody : exists st2,
             snd (analyze_body E (saved E content st)) = st2
             /\ (dirs st2 = dirs st \/ dirs st2 = {[reports_dir]} ∪ dirs st)
             /\ forall p, p <> report_html_path -> p <> report_pdf_path ->
                  files st2 !! p = files (saved E content st) !! p).
  { destruct (extract_text E content) as [text|e] eqn:Htext.
    - destruct (analyze_each E 0 (iso_controls E) text []) as [rs|e] eqn:Hloop.
      + destruct (analyze_body_rendering E content text st rs Htext Hloop)
          as (st2 & Hdirs & Hrun).
        exists st2.
        destruct (render_rows E rs _) as [html|e];
          [destruct (write_pdf E (html +:+ page_foot)) as [pdf|e]|];
          destruct Hrun as [-> Hfiles]; (split; [reflexivity|]); (split; [exact Hdirs|]);
          intros p Hp1 Hp2; rewrite Hfiles;
          rewrite ?(lookup_insert_ne _ report_pdf_path p) by congruence;
          rewrite ?(lookup_insert_ne _ report_html_path p) by congruence; reflexivity.
      + rewrite analyze_body_unfold, Htext, Hloop. eexists. split; [reflexivity|].
        split; [now left | reflexivity].
    - rewrite analyze_body_unfold, Htext. eexists. split; [reflexivity|].
      split; [now left | reflexivity]. }
  destruct Hbody as (st2 & -> & Hdirs & Hframe). split; [|exact Hdirs].
  intros p Hp0 Hp1 Hp2. rewrite lookup_delete_ne by congruence.
  rewrite Hframe by assumption. unfold saved. cbn [files].
  now rewrite lookup_insert_ne by congruence.
Qed.

Lemma request_touches_only_its_files_witness :
  files (snd (analyze_pdf Demo.world_no_pdf Demo.upload Demo.disk)) !! "data/iso_controls_master.csv"
  = files Demo.disk !! "data/iso_controls_master.csv".
Proof.
  destruct (request_touches_only_its_files Demo.world_no_pdf Demo.upload Demo.disk)
    as [Hframe _].
  apply Hframe; discriminate.
Defined.

(** Over an empty catalog the service is not called and the request
    returns no result and a summary of zeros, whose percentage is the
    integer 0, provided the text is extracted and the page, made of the
    head and the foot alone, is printed. *)
Theorem empty_catalog_run (E : env) (content text pdf : string) (st : fs) :
  iso_controls E = [] ->
  extract_text E content = Ok text ->
  write_pdf E (page_head E (now E) empty_summary +:+ page_foot) = Ok pdf ->
  fst (analyze_pdf E content st) = Ok (empty_summary, []).
Proof.
  intros Hcat Htext Hpdf. apply analyze_pdf_returns.
  exists text, (page_head E (now E) empty_summary), pdf.
  rewrite Hcat. repeat split; try assumption. constructor.
Qed.

Lemma empty_catalog_run_witness :
  fst (analyze_pdf Demo.world_empty Demo.upload Demo.disk) = Ok (empty_summary, []).
Proof.
  apply (empty_catalog_run Demo.world_empty Demo.upload Demo.policy_text
           ("%PDF-1.7 " +:+ Demo.short_head "2025-03-01 09:30:00" empty_summary +:+ page_foot)
           Demo.disk).
  - reflexivity.
  - vm_compute. reflexivity.
  - vm_compute. reflexivity.
Defined.

(** ** The counts and the status tags *)

Section Tags.

Lemma unrecognised_indicator (r : row) :
  (if eq_str (status r) "MET" then 1 else 0)
  + (if eq_str (status r) "PARTIALLY MET" then 1 else 0)
  + (if eq_str (status r) "NOT MET" then 1 else 0)
  + (if unrecognised r then 1 else 0) = 1.
Proof.
  pose proof (three_literals_exclusive (status r)) as Hex. unfold unrecognised.
  destruct (eq_str (status r) "MET"), (eq_str (status r) "PARTIALLY MET"),
    (eq_str (status r) "NOT MET"); simpl in *; lia.
Qed.

Lemma tagged_indicator (r : row) :
  (if tagged_not_met r then 1 else 0)
  = (if eq_str (status r) "NOT MET" then 1 else 0) + (if unrecognised r then 1 else 0).
Proof.
  unfold tagged_not_met, unrecognised.
  destruct (status_class_cases r) as [[Hs Hc] | [[Hs Hc] | (Hn1 & Hn2 & Hc)]]; rewrite Hc.
  - rewrite Hs. reflexivity.
  - rewrite Hs. reflexivity.
  - assert (H1 : eq_str (status r) "MET" = false).
    { destruct (eq_str (status r) "MET") eqn:H; [|reflexivity].
      apply eq_str_true in H. contradiction. }
    assert (H2 : eq_str (status r) "PARTIALLY MET" = false).
    { destruct (eq_str (status r) "PARTIALLY MET") eqn:H; [|reflexivity].
      apply eq_str_true in H. contradiction. }
    rewrite H1, H2. now destruct (eq_str (status r) "NOT MET").
Qed.

Lemma length_filter_cons {A} (f : A -> bool) (x : A) (l : list A) :
  length (List.filter f (x :: l)) = (if f x then 1 else 0) + length (List.filter f l).
Proof. simpl. now destruct (f x). Qed.

End Tags.

(** The three counts and the number of results whose status is none of
    the three literals add up to [total_controls]: a result is left out of
    the counts exactly when its status is unrecognised. *)
Theorem counts_miss_unrecognised_only (rs : list row) :
  met_count (summarize rs) + partially_met_count (summarize rs)
  + not_met_count (summarize rs) + length (List.filter unrecognised rs)
  = total_controls (summarize rs).
Proof.
  cbn [summarize met_count partially_met_count not_met_count total_controls].
  induction rs as [|r rs IH]; [reflexivity|].
  rewrite !count_status_cons, length_filter_cons. cbn [length].
  pose proof (unrecognised_indicator r). lia.
Qed.

(** The rows the report tags [status-not-met] are the results counted as
    not met together with those whose status is unrecognised: the table
    shows more rows as not met than [not_met_count] says as soon as one
    status is none of the three literals. *)
Theorem not_met_tags_exceed_count (rs : list row) :
  length (List.filter tagged_not_met rs)
  = not_met_count (summarize rs) + length (List.filter unrecognised rs).
Proof.
  cbn [summarize not_met_count].
  induction rs as [|r rs IH]; [reflexivity|].
  rewrite count_status_cons, !length_filter_cons, tagged_indicator. lia.
Qed.

(** ** The extracted text *)

Section Extraction.

Lemma join_pages_acc (pages : list (option string)) :
  forall acc,
    join_pages pages acc = acc +:+ join (List.map (fun t => t +:+ nl) (page_texts pages)).
Proof.
  induction pages as [|[[|a t]|] rest IH]; intros acc; cbn [join_pages page_texts].
  - simpl. now rewrite append_empty_r.
  - apply IH.
  - rewrite IH. cbn [List.map join fold_right]. now rewrite !append_assoc.
  - apply IH.
Qed.

Lemma page_texts_nil (pages : list (option string)) :
  page_texts pages = [] <-> Forall blank_page pages.
Proof.
  induction pages as [|[[|a t]|] rest IH]; cbn [page_texts].
  - split; [constructor | reflexivity].
  - rewrite IH. split; [intros H; constructor; [now right | assumption] | now inversion 1].
  - split; [discriminate|]. inversion 1 as [|? ? [Hb | Hb] _]; discriminate Hb.
  - rewrite IH. split; [intros H; constructor; [now left | assumption] | now inversion 1].
Qed.

Lemma page_texts_nonempty (pages : list (option string)) :
  Forall (fun t => t <> EmptyString) (page_texts pages).
Proof.
  induction pages as [|[[|a t]|] rest IH]; cbn [page_texts]; try assumption.
  - constructor.
  - constructor; [discriminate | assumption].
Qed.

End Extraction.

(** The extracted text is made of the texts of the pages that have one,
    in page order, each followed by a newline; pages whose text is [None]
    or empty add nothing, and the text is empty exactly when every page is
    such a page. *)
Theorem extract_text_pages (E : env) (content : string) (pages : list (option string)) :
  pdf_pages E content = Ok pages ->
  extract_text E content
  = Ok (join (List.map (fun t => t +:+ nl) (page_texts pages)))
  /\ (extract_text E content = Ok EmptyString <-> Forall blank_page pages).
Proof.
  intros Hpages. unfold extract_text. rewrite Hpages. cbn [bind].
  rewrite join_pages_acc. cbn [String.append]. split; [reflexivity|].
  rewrite <- page_texts_nil. pose proof (page_texts_nonempty pages) as Hne.
  destruct (page_texts pages) as [|t ts].
  - split; reflexivity.
  - split; [|discriminate]. intros H. injection H as H.
    cbn [List.map join fold_right] in H. inversion Hne as [|? ? Ht _]; subst.
    destruct t; [contradiction | discriminate H].
Qed.

Lemma extract_text_pages_witness :
  extract_text Demo.world_known Demo.upload
  = Ok (join (List.map (fun t => t +:+ nl)
                (page_texts [Some "Access rights are reviewed every quarter."; None;
                             Some "Roles are assigned by the security officer."])))
  /\ (extract_text Demo.world_known Demo.upload = Ok EmptyString
      <-> Forall blank_page [Some "Access rights are reviewed every quarter."; None;
                             Some "Roles are assigned by the security officer."]).
Proof.
  apply (extract_text_pages Demo.world_known Demo.upload). reflexivity.
Defined.

(** ** More on [escape_html] and the rows *)

Section Escaping.

Lemma occurrences_app (c : ascii) (a b : string) :
  occurrences c (a +:+ b) = occurrences c a + occurrences c b.
Proof.
  induction a as [|x a IH]; [reflexivity|].
  cbn [String.append occurrences]. rewrite IH. lia.
Qed.

(** How [esc_char] treats a character. *)
Lemma esc_char_cases (c : ascii) :
  (c = "&"%char /\ esc_char c = "&amp;")
  \/ (c = "<"%char /\ esc_char c = "&lt;")
  \/ (c = ">"%char /\ esc_char c = "&gt;")
  \/ (c = ascii_of_nat 34 /\ esc_char c = "&quot;")
  \/ (existsb (Ascii.eqb c) metachars4 = false /\ esc_char c = String c EmptyString).
Proof.
  destruct c as [[] [] [] [] [] [] [] []];
    first [ left; split; reflexivity
          | right; left; split; reflexivity
          | right; right; left; split; reflexivity
          | right; right; right; left; split; reflexivity
          | right; right; right; right; split; reflexivity ].
Qed.

Lemma escape_text_no_markup (c : ascii) (s : string) :
  In c ["<"; ">"; ascii_of_nat 34]%char -> occurrences c (escape_text s) = 0.
Proof.
  intros Hc. unfold escape_text. induction s as [|x s IH]; [reflexivity|].
  cbn [flat]. rewrite occurrences_app, IH, Nat.add_0_r.
  destruct (esc_char_cases x) as [[_ ->] | [[_ ->] | [[_ ->] | [[_ ->] | [Hx ->]]]]];
    simpl in Hc; destruct Hc as [<- | [<- | [<- | []]]]; try reflexivity;
    cbn [occurrences]; simpl in Hx; rewrite !orb_false_iff in Hx;
    destruct Hx as (_ & H1 & H2 & H3 & _); rewrite ?H1, ?H2, ?H3; reflexivity.
Qed.

Lemma status_class_no_markup (c : ascii) (r : row) :
  In c ["<"; ">"; ascii_of_nat 34]%char -> occurrences c (status_class r) = 0.
Proof.
  intros Hc.
  destruct (status_class_cases r) as [[_ ->] | [[_ ->] | (_ & _ & ->)]];
    simpl in Hc; destruct Hc as [<- | [<- | [<- | []]]]; reflexivity.
Qed.

(** [escape_text] can be undone: two texts with the same escaped form are
    the same text. *)
Lemma escape_text_inj (a : string) : forall b, escape_text a = escape_text b -> a = b.
Proof.
  unfold escape_text. induction a as [|x a IH]; intros [|y b] H; cbn [flat] in H.
  - reflexivity.
  - destruct (esc_char_cases y) as [[_ Hy] | [[_ Hy] | [[_ Hy] | [[_ Hy] | [_ Hy]]]]];
      rewrite Hy in H; discriminate H.
  - destruct (esc_char_cases x) as [[_ Hx] | [[_ Hx] | [[_ Hx] | [[_ Hx] | [_ Hx]]]]];
      rewrite Hx in H; discriminate H.
  - destruct (esc_char_cases x) as [[Ex Hx] | [[Ex Hx] | [[Ex Hx] | [[Ex Hx] | [Ex Hx]]]]];
      destruct (esc_char_cases y) as [[Ey Hy] | [[Ey Hy] | [[Ey Hy] | [[Ey Hy] | [Ey Hy]]]]];
      rewrite Hx, Hy in H; cbn [String.append] in H;
      try discriminate H;
      try (injection H as H; subst x y; now rewrite (IH b H));
      try (injection H as <- H; subst x; discriminate Ey);
      try (injection H as -> H; subst y; discriminate Ex).
    injection H as <- H. now rewrite (IH b H).
Qed.

Lemma length_append (a b : string) :
  String.length (a +:+ b) = String.length a + String.length b.
Proof. induction a as [|x a IH]; [reflexivity|]. cbn [String.append String.length]. now rewrite IH. Qed.

Lemma escape_text_length (s : string) : String.length s <= String.length (escape_text s).
Proof.
  unfold escape_text. induction s as [|x s IH]; [reflexivity|].
  cbn [flat String.length]. rewrite length_append.
  destruct (esc_char_cases x) as [[_ ->] | [[_ ->] | [[_ ->] | [[_ ->] | [_ ->]]]]];
    cbn [String.length]; lia.
Qed.

Lemma escape_text_plain (s : string) : escape_text s = s <-> plain s = true.
Proof.
  unfold escape_text. induction s as [|x s IH]; [split; reflexivity|].
  cbn [flat plain].
  destruct (esc_char_cases x) as [[Ex Hx] | [[Ex Hx] | [[Ex Hx] | [[Ex Hx] | [Hpx Hx]]]]];
    rewrite Hx; try subst x.
  5: { rewrite Hpx. cbn [String.append negb andb]. rewrite <- IH.
       split; [now intros [= H] | now intros ->]. }
  all: split; [|discriminate]; intros H; exfalso;
    apply (f_equal String.length) in H; rewrite length_append in H;
    pose proof (escape_text_length s) as Hlen; unfold escape_text in Hlen;
    cbn [String.length] in H; lia.
Qed.

End Escaping.

(** In a rendered row the characters [<], [>] and the double quote come
    from the fixed markup of the row and from the lower-cased risk level,
    which is put into the [class] attribute as it is; the seven escaped
    cells and the status class add none. *)
Theorem row_markup_from_risk_level_only (E : env) (r : row) (t text : string) (c : ascii) :
  render_row E r = Ok text ->
  risk_level r = JStr t ->
  In c ["<"; ">"; ascii_of_nat 34]%char ->
  occurrences c text
  = occurrences c (row_html EmptyString EmptyString EmptyString EmptyString EmptyString
                     EmptyString EmptyString EmptyString EmptyString)
    + occurrences c (lower E t).
Proof.
  unfold render_row, risk_class. intros H Hrisk Hc. rewrite Hrisk in H. cbn [bind] in H.
  injection H as <-. unfold row_html.
  rewrite !occurrences_app, !escape_html_flat.
  rewrite !escape_text_no_markup, status_class_no_markup by assumption.
  cbn [occurrences String.append].
  set (n := occurrences c (lower E t)). clearbody n.
  simpl in Hc. destruct Hc as [<- | [<- | [<- | []]]]; cbv -[Nat.add]; lia.
Qed.

Lemma row_markup_from_risk_level_only_witness :
  occurrences "<" Demo.r_script_text
  = occurrences "<" (row_html EmptyString EmptyString EmptyString EmptyString EmptyString
                       EmptyString EmptyString EmptyString EmptyString)
    + occurrences "<" (lower Demo.world_known "HIGH").
Proof.
  apply (row_markup_from_risk_level_only Demo.world_known Demo.r_script "HIGH").
  - vm_compute. reflexivity.
  - reflexivity.
  - simpl. tauto.
Defined.

(** [escape_html] loses nothing: two strings are escaped to the same text
    only if they are the same string. *)
Theorem escape_html_injective (E : env) (a b : string) :
  escape_html E (JStr a) = escape_html E (JStr b) <-> a = b.
Proof.
  rewrite !escape_html_flat. cbn [str]. split; [apply escape_text_inj | now intros ->].
Qed.

(** [escape_html] returns a string unchanged exactly when the string
    holds none of [&], [<], [>] and the double quote, and it never returns
    a shorter text. *)
Theorem escape_html_fixes_plain_text (E : env) (s : string) :
  (escape_html E (JStr s) = s <-> plain s = true)
  /\ String.length s <= String.length (escape_html E (JStr s)).
Proof.
  rewrite !escape_html_flat. cbn [str].
  split; [apply escape_text_plain | apply escape_text_length].
Qed.

(** On a disk that holds no report, a request on which the judge raises
    leaves nothing to download: both routes still answer 404.  The
    temporary name is one no file bears. *)
Theorem failed_first_run_leaves_no_download (E : env) (content text : string) (st : fs)
    (k : nat) (c : control) (e : exn) :
  files st !! temp_path E = None ->
  path_exists report_html_path st = false ->
  path_exists report_pdf_path st = false ->
  extract_text E content = Ok text ->
  iso_controls E !! k = Some c ->
  judge E k c text = Raise e ->
  download_report (snd (analyze_pdf E content st))
  = HTTPException 404 "Report not found. Please run /analyze first to generate the report."
  /\ download_report_pdf (snd (analyze_pdf E content st))
     = HTTPException 404
         "PDF report not found. Please run /analyze first to generate the report.".
Proof.
  intros Hfresh Hhtml Hpdf Htext Hk Hj. rewrite analyze_pdf_unfold. cbn [snd].
  destruct (analyze_body_judge_raises E content text st k c e Htext Hk Hj) as [e' ->].
  cbn [snd]. rewrite cleaned_saved by assumption.
  unfold download_report, download_report_pdf.
  change (path_join "reports" "report.html") with report_html_path.
  change (path_join "reports" "report.pdf") with report_pdf_path.
  now rewrite Hhtml, Hpdf.
Qed.

Lemma failed_first_run_leaves_no_download_witness :
  download_report
    (snd (analyze_pdf Demo.world_tenth Demo.upload {| files := ∅; dirs := ∅ |}))
  = HTTPException 404 "Report not found. Please run /analyze first to generate the report."
  /\ download_report_pdf
       (snd (analyze_pdf Demo.world_tenth Demo.upload {| files := ∅; dirs := ∅ |}))
     = HTTPException 404
         "PDF report not found. Please run /analyze first to generate the report.".
Proof.
  apply (failed_first_run_leaves_no_download Demo.world_tenth Demo.upload Demo.policy_text
           {| files := ∅; dirs := ∅ |} 9 Demo.c10 (KeyError "recommendation")).
  - reflexivity.
  - reflexivity.
  - reflexivity.
  - vm_compute. reflexivity.
  - reflexivity.
  - vm_compute. reflexivity.
Defined.
